(** * gcert: certificate issuance and chain verification

    A shallow embedding of the Go package [gcert] (options.go and the file
    holding [Generate], [ParsePemCertFile], [Verify], [ParsePemKeyFile] and
    [publicKey]).

    The package is an orchestration layer over the Go standard library.  The
    package's own code is embedded as Rocq functions; the standard-library
    collaborators it calls (key generation, the random source, the clock,
    PEM and DER codecs, the file system, certificate signing and chain
    verification) are the fields of a record [Lib], over which every
    definition and theorem is parametric.  Calls that touch the outside
    world are logged in a trace of [Event]s, so that statements about what
    is called, with which arguments and in which order can be made. *)

From Stdlib Require Import String Ascii List ZArith Lia Bool.
Import ListNotations.
Local Open Scope string_scope.
Local Open Scope Z_scope.

(* ===================================================================== *)
(** ** Go values *)
(* ===================================================================== *)

(** A Go [[]byte]. *)
Definition bytes := list Byte.byte.

(** A Go [error] value, identified with the text its [Error()] method
    returns; [fmt.Errorf("...: %v", err)] is then string concatenation. *)
Definition error := string.

(** The pair [(T, error)] returned by fallible Go functions. *)
Inductive result (A : Type) : Type :=
| Ok (a : A)
| Err (e : error).
Arguments Ok {A} a.
Arguments Err {A} e.

(** [time.Duration]: a count of nanoseconds (an int64 in Go). *)
Definition Duration := Z.
Definition time_Nanosecond : Duration := 1.
Definition time_Hour : Duration := 3600 * 1000000000.

(** [time.Time], as nanoseconds since the Unix epoch. *)
Definition Time := Z.

(** [Time.Add]. *)
Definition Time_Add (t : Time) (d : Duration) : Time := t + d.

(** Go's [len] on strings, compared with zero. *)
Definition len0 (s : string) : bool :=
  match s with
  | EmptyString => true
  | String _ _ => false
  end.

(* ===================================================================== *)
(** ** options.go *)
(* ===================================================================== *)

Definition CurveP224 : string := "P224".
Definition CurveP256 : string := "P256".
Definition CurveP384 : string := "P384".
Definition CurveP521 : string := "P521".

Record options : Type := mkOptions {
  parentCert   : string;
  parentKey    : string;
  certFileName : string;
  keyFileName  : string;
  validFrom    : string;
  validFor     : Duration;
  rsaBits      : Z;
  ecdsaCurve   : string;
  ed25519Key   : bool;
  isCA         : bool
}.

(** [type Option]: a Go function taking a pointer to [options]; the
    mutation through the pointer is an [options -> options] function. *)
Definition Option := options -> options.

Definition initOptions : options :=
  {| parentCert   := "";
     parentKey    := "";
     certFileName := "cert.pem";
     keyFileName  := "key.pem";
     validFrom    := "";
     validFor     := 365 * 24 * time_Hour;
     rsaBits      := 2048;
     ecdsaCurve   := "";
     ed25519Key   := false;
     isCA         := false |}.

Definition WithKeyFileName (name : string) : Option := fun o =>
  mkOptions (parentCert o) (parentKey o) (certFileName o) name
            (validFrom o) (validFor o) (rsaBits o) (ecdsaCurve o)
            (ed25519Key o) (isCA o).

Definition WithCertFileName (name : string) : Option := fun o =>
  mkOptions (parentCert o) (parentKey o) name (keyFileName o)
            (validFrom o) (validFor o) (rsaBits o) (ecdsaCurve o)
            (ed25519Key o) (isCA o).

Definition WithSignByParent (parentCertPath parentKeyPath : string) : Option :=
  fun o =>
  mkOptions parentCertPath parentKeyPath (certFileName o) (keyFileName o)
            (validFrom o) (validFor o) (rsaBits o) (ecdsaCurve o)
            (ed25519Key o) (isCA o).

Definition WithStartDate (startDate : string) : Option := fun o =>
  mkOptions (parentCert o) (parentKey o) (certFileName o) (keyFileName o)
            startDate (validFor o) (rsaBits o) (ecdsaCurve o)
            (ed25519Key o) (isCA o).

Definition WithDuration (duration : Duration) : Option := fun o =>
  mkOptions (parentCert o) (parentKey o) (certFileName o) (keyFileName o)
            (validFrom o) duration (rsaBits o) (ecdsaCurve o)
            (ed25519Key o) (isCA o).

Definition WithCA : Option := fun o =>
  mkOptions (parentCert o) (parentKey o) (certFileName o) (keyFileName o)
            (validFrom o) (validFor o) (rsaBits o) (ecdsaCurve o)
            (ed25519Key o) true.

Definition WithRSABits (bits : Z) : Option := fun o =>
  mkOptions (parentCert o) (parentKey o) (certFileName o) (keyFileName o)
            (validFrom o) (validFor o) bits (ecdsaCurve o)
            (ed25519Key o) (isCA o).

Definition WithP224 : Option := fun o =>
  mkOptions (parentCert o) (parentKey o) (certFileName o) (keyFileName o)
            (validFrom o) (validFor o) (rsaBits o) CurveP224
            (ed25519Key o) (isCA o).

Definition WithP256 : Option := fun o =>
  mkOptions (parentCert o) (parentKey o) (certFileName o) (keyFileName o)
            (validFrom o) (validFor o) (rsaBits o) CurveP256
            (ed25519Key o) (isCA o).

Definition WithP384 : Option := fun o =>
  mkOptions (parentCert o) (parentKey o) (certFileName o) (keyFileName o)
            (validFrom o) (validFor o) (rsaBits o) CurveP384
            (ed25519Key o) (isCA o).

Definition WithP521 : Option := fun o =>
  mkOptions (parentCert o) (parentKey o) (certFileName o) (keyFileName o)
            (validFrom o) (validFor o) (rsaBits o) CurveP521
            (ed25519Key o) (isCA o).

Definition WithED25519 : Option := fun o =>
  mkOptions (parentCert o) (parentKey o) (certFileName o) (keyFileName o)
            (validFrom o) (validFor o) (rsaBits o) (ecdsaCurve o)
            true (isCA o).

(** The loop [o := initOptions(); for _, opt := range opts { opt(&o) }] at
    the head of [Generate]. *)
Definition applyOptions (opts : list Option) (o : options) : options :=
  fold_left (fun acc opt => opt acc) opts o.

Definition resolve (opts : list Option) : options :=
  applyOptions opts initOptions.

(** The fields of [options], and a reading of a field as a tagged value,
    used to say which fields an option writes. *)
Inductive Field : Type :=
| FparentCert | FparentKey | FcertFileName | FkeyFileName | FvalidFrom
| FvalidFor | FrsaBits | FecdsaCurve | Fed25519Key | FisCA.

Inductive FieldValue : Type :=
| VString (s : string)
| VInt (z : Z)
| VBool (b : bool).

Definition getField (f : Field) (o : options) : FieldValue :=
  match f with
  | FparentCert   => VString (parentCert o)
  | FparentKey    => VString (parentKey o)
  | FcertFileName => VString (certFileName o)
  | FkeyFileName  => VString (keyFileName o)
  | FvalidFrom    => VString (validFrom o)
  | FvalidFor     => VInt (validFor o)
  | FrsaBits      => VInt (rsaBits o)
  | FecdsaCurve   => VString (ecdsaCurve o)
  | Fed25519Key   => VBool (ed25519Key o)
  | FisCA         => VBool (isCA o)
  end.




(** The option constructors the package exports, each with the fields of
    [options] its body assigns.  The record type [options] and its fields
    are unexported, so outside the package these are the only way to build
    an [Option] that changes anything. *)
Inductive writes : Option -> list Field -> Prop :=
| w_KeyFileName  s   : writes (WithKeyFileName s) [FkeyFileName]
| w_CertFileName s   : writes (WithCertFileName s) [FcertFileName]
| w_SignByParent c k : writes (WithSignByParent c k) [FparentCert; FparentKey]
| w_StartDate    s   : writes (WithStartDate s) [FvalidFrom]
| w_Duration     d   : writes (WithDuration d) [FvalidFor]
| w_CA               : writes WithCA [FisCA]
| w_RSABits      n   : writes (WithRSABits n) [FrsaBits]
| w_P224             : writes WithP224 [FecdsaCurve]
| w_P256             : writes WithP256 [FecdsaCurve]
| w_P384             : writes WithP384 [FecdsaCurve]
| w_P521             : writes WithP521 [FecdsaCurve]
| w_ED25519          : writes WithED25519 [Fed25519Key].

Definition exported (opt : Option) : Prop := exists fs, writes opt fs.

(** The four curve constants of options.go. *)
Definition recognizedCurves : list string :=
  [CurveP224; CurveP256; CurveP384; CurveP521].

(* ===================================================================== *)
(** ** Values of the Go standard library *)
(* ===================================================================== *)

(** The named curves of [crypto/elliptic]. *)
Inductive Curve : Type := elliptic_P224 | elliptic_P256 | elliptic_P384 | elliptic_P521.

Record rsa_PublicKey : Type := { rsa_N : Z; rsa_E : Z }.
Record rsa_PrivateKey : Type := { rsa_Public : rsa_PublicKey; rsa_D : Z }.

Record ecdsa_PublicKey : Type := { ecdsa_Curve : Curve; ecdsa_X : Z; ecdsa_Y : Z }.
Record ecdsa_PrivateKey : Type := { ecdsa_Public : ecdsa_PublicKey; ecdsa_D : Z }.

(** [ed25519.PrivateKey] and [ed25519.PublicKey] are byte slices; the
    private key is the 32-byte seed followed by the 32-byte public key,
    and [PrivateKey.Public] returns that second half. *)
Definition ed25519_PublicKey := bytes.
Definition ed25519_PrivateKey := bytes.
Definition ed25519_Public (k : ed25519_PrivateKey) : ed25519_PublicKey :=
  skipn 32 k.

(** The dynamic types a private key held in a Go [any] can have here: the
    three that [Generate] creates, and [*ecdh.PrivateKey], which
    [x509.ParsePKCS8PrivateKey] may also return. *)
Inductive PrivateKey : Type :=
| RSAPrivateKey (k : rsa_PrivateKey)
| ECDSAPrivateKey (k : ecdsa_PrivateKey)
| Ed25519PrivateKey (k : ed25519_PrivateKey)
| ECDHPrivateKey (k : bytes).

Inductive PublicKey : Type :=
| RSAPublicKey (k : rsa_PublicKey)
| ECDSAPublicKey (k : ecdsa_PublicKey)
| Ed25519PublicKey (k : ed25519_PublicKey).

(** [x509.KeyUsage] is a bit set held in an int. *)
Definition KeyUsage_t := Z.
Definition x509_KeyUsageDigitalSignature : KeyUsage_t := Z.shiftl 1 0.
Definition x509_KeyUsageContentCommitment : KeyUsage_t := Z.shiftl 1 1.
Definition x509_KeyUsageKeyEncipherment : KeyUsage_t := Z.shiftl 1 2.
Definition x509_KeyUsageDataEncipherment : KeyUsage_t := Z.shiftl 1 3.
Definition x509_KeyUsageKeyAgreement : KeyUsage_t := Z.shiftl 1 4.
Definition x509_KeyUsageCertSign : KeyUsage_t := Z.shiftl 1 5.
Definition x509_KeyUsageCRLSign : KeyUsage_t := Z.shiftl 1 6.

(** Does the bit set [u] contain every bit of [flag]? *)
Definition hasKeyUsage (u flag : KeyUsage_t) : bool := Z.land u flag =? flag.

Inductive ExtKeyUsage_t : Type :=
| x509_ExtKeyUsageAny
| x509_ExtKeyUsageServerAuth
| x509_ExtKeyUsageClientAuth
| x509_ExtKeyUsageCodeSigning
| x509_ExtKeyUsageEmailProtection
| x509_ExtKeyUsageTimeStamping
| x509_ExtKeyUsageOCSPSigning.

(** [net.IP]. *)
Definition IP := bytes.

(** The fields of [x509.Certificate] that this package sets or that tell
    two certificates apart ([Raw], the DER bytes of a parsed one). *)
Record Certificate : Type := mkCertificate {
  Raw                   : bytes;
  SerialNumber          : Z;
  Subject_Organization  : list string;
  NotBefore             : Time;
  NotAfter              : Time;
  KeyUsage              : KeyUsage_t;
  ExtKeyUsage           : list ExtKeyUsage_t;
  BasicConstraintsValid : bool;
  IsCA                  : bool;
  DNSNames              : list string;
  IPAddresses           : list IP
}.

Definition set_KeyUsage (c : Certificate) (u : KeyUsage_t) : Certificate :=
  mkCertificate (Raw c) (SerialNumber c) (Subject_Organization c)
    (NotBefore c) (NotAfter c) u (ExtKeyUsage c)
    (BasicConstraintsValid c) (IsCA c) (DNSNames c) (IPAddresses c).

Definition set_IsCA (c : Certificate) (b : bool) : Certificate :=
  mkCertificate (Raw c) (SerialNumber c) (Subject_Organization c)
    (NotBefore c) (NotAfter c) (KeyUsage c) (ExtKeyUsage c)
    (BasicConstraintsValid c) b (DNSNames c) (IPAddresses c).

Definition set_DNSNames (c : Certificate) (l : list string) : Certificate :=
  mkCertificate (Raw c) (SerialNumber c) (Subject_Organization c)
    (NotBefore c) (NotAfter c) (KeyUsage c) (ExtKeyUsage c)
    (BasicConstraintsValid c) (IsCA c) l (IPAddresses c).

Definition set_IPAddresses (c : Certificate) (l : list IP) : Certificate :=
  mkCertificate (Raw c) (SerialNumber c) (Subject_Organization c)
    (NotBefore c) (NotAfter c) (KeyUsage c) (ExtKeyUsage c)
    (BasicConstraintsValid c) (IsCA c) (DNSNames c) l.

(** [pem.Block]. *)
Record Block : Type := mkBlock {
  Block_Type    : string;
  Block_Headers : list (string * string);
  Block_Bytes   : bytes
}.

(** An open [*os.File]. *)
Record File : Type := mkFile { File_Name : string; File_fd : Z }.

(** [os.O_WRONLY], [os.O_CREATE], [os.O_TRUNC] (their values on Linux) and
    the octal mode 0600. *)
Definition os_O_WRONLY : Z := 1.
Definition os_O_CREATE : Z := 64.
Definition os_O_TRUNC : Z := 512.
Definition mode_0600 : Z := 6 * 64.

(** [x509.CertPool]: [NewCertPool] is the empty pool, [AddCert] adds one
    certificate. *)
Definition CertPool := list Certificate.
Definition x509_NewCertPool : CertPool := [].
Definition CertPool_AddCert (p : CertPool) (c : Certificate) : CertPool :=
  (p ++ [c])%list.

(** [x509.VerifyOptions].  A field left out of a Go composite literal has
    its zero value: [None] for the pools and for [CurrentTime], for which
    the library documents "if zero, the current time is used". *)
Record VerifyOptions : Type := mkVerifyOptions {
  DNSName       : string;
  Intermediates : option CertPool;
  Roots         : option CertPool;
  CurrentTime   : option Time;
  KeyUsages     : list ExtKeyUsage_t
}.

(* ===================================================================== *)
(** ** The collaborators and the trace of calls made to them *)
(* ===================================================================== *)

(** A call that reaches outside the process: the random source, the clock,
    the file system, the signing and verification primitives. *)
Inductive Event : Type :=
| ed25519_GenerateKey_call
| rsa_GenerateKey_call (bits : Z)
| ecdsa_GenerateKey_call (c : Curve)
| time_Now_call
| rand_Int_call (max : Z)
| os_ReadFile_call (name : string)
| x509_CreateCertificate_call (template parent : Certificate)
                              (pub : option PublicKey) (priv : PrivateKey)
| os_Create_call (name : string)
| os_OpenFile_call (name : string) (flag : Z) (perm : Z)
| pem_Encode_call (out : File) (b : Block)
| File_Close_call (f : File)
| Certificate_Verify_call (c : Certificate) (opts : VerifyOptions).

(** The standard-library functions the package calls.  [W] is the state of
    the outside world; a function that reads or changes it takes and
    returns it.  The [rand.Reader] argument of the Go calls is part of
    [W]. *)
Record Lib (W : Type) : Type := mkLib {
  ed25519_GenerateKey : W -> result (ed25519_PublicKey * ed25519_PrivateKey) * W;
  rsa_GenerateKey : Z -> W -> result rsa_PrivateKey * W;
  ecdsa_GenerateKey : Curve -> W -> result ecdsa_PrivateKey * W;
  time_Now : W -> Time * W;
  time_Parse : string -> string -> result Time;
  rand_Int : Z -> W -> result Z * W;
  net_ParseIP : string -> option IP;
  os_ReadFile : string -> W -> result bytes * W;
  pem_Decode : bytes -> option Block * bytes;
  x509_ParseCertificate : bytes -> result Certificate;
  x509_ParsePKCS8PrivateKey : bytes -> result PrivateKey;
  x509_CreateCertificate :
    Certificate -> Certificate -> option PublicKey -> PrivateKey ->
    W -> result bytes * W;
  os_Create : string -> W -> result File * W;
  os_OpenFile : string -> Z -> Z -> W -> result File * W;
  pem_Encode : File -> Block -> W -> result unit * W;
  File_Close : File -> W -> result unit * W;
  x509_MarshalPKCS8PrivateKey : PrivateKey -> result bytes;
  Certificate_Verify :
    Certificate -> VerifyOptions -> W -> result (list (list Certificate)) * W;
  fmt_q : string -> string
}.
Arguments ed25519_GenerateKey {W}.
Arguments rsa_GenerateKey {W}.
Arguments ecdsa_GenerateKey {W}.
Arguments time_Now {W}.
Arguments time_Parse {W}.
Arguments rand_Int {W}.
Arguments net_ParseIP {W}.
Arguments os_ReadFile {W}.
Arguments pem_Decode {W}.
Arguments x509_ParseCertificate {W}.
Arguments x509_ParsePKCS8PrivateKey {W}.
Arguments x509_CreateCertificate {W}.
Arguments os_Create {W}.
Arguments os_OpenFile {W}.
Arguments pem_Encode {W}.
Arguments File_Close {W}.
Arguments x509_MarshalPKCS8PrivateKey {W}.
Arguments Certificate_Verify {W}.
Arguments fmt_q {W}.

(* ===================================================================== *)
(** ** A monad for Go functions that return an error *)
(* ===================================================================== *)

Module GoM.

(** A computation runs from a world, and gives its result (a value, or the
    error of an early [return]), the world it leaves and the calls it
    made, oldest first. *)
Definition M (W A : Type) : Type := W -> result A * W * list Event.

Definition ret {W A} (a : A) : M W A := fun w => (Ok a, w, []).

Definition fail {W A} (e : error) : M W A := fun w => (Err e, w, []).

Definition bind {W A B} (m : M W A) (f : A -> M W B) : M W B := fun w =>
  match m w with
  | (Ok a, w1, t1) =>
      match f a w1 with
      | (r, w2, t2) => (r, w2, (t1 ++ t2)%list)
      end
  | (Err e, w1, t1) => (Err e, w1, t1)
  end.

(** A call to a collaborator, logged; its Go result pair is handed back as
    a value, for the caller to test. *)
Definition call {W A} (ev : Event) (f : W -> A * W) : M W A := fun w =>
  match f w with
  | (a, w1) => (Ok a, w1, [ev])
  end.

(** [if err != nil { return fmt.Errorf(prefix + "%v", err) }]. *)
Definition orErrorf {W A} (prefix : string) (r : result A) : M W A :=
  match r with
  | Ok a => ret a
  | Err e => fail (prefix ++ e)
  end.

(** [if err != nil { return err }]. *)
Definition orReturn {W A} (r : result A) : M W A :=
  match r with
  | Ok a => ret a
  | Err e => fail e
  end.

Definition outcome {W A} (x : result A * W * list Event) : result A :=
  fst (fst x).
Definition world {W A} (x : result A * W * list Event) : W := snd (fst x).
Definition trace {W A} (x : result A * W * list Event) : list Event := snd x.

End GoM.
Import GoM.

Notation "x <- m ;; k" := (bind m (fun x => k))
  (at level 61, m at next level, right associativity).

(* ===================================================================== *)
(** ** The package's functions *)
(* ===================================================================== *)

(** [strings.Split(s, sep)] for a separator of one byte, which is how
    [Generate] calls it: the pieces of [s] between the separators, in
    order; one piece more than there are separators. *)
Fixpoint strings_Split (s : string) (sep : ascii) : list string :=
  match s with
  | EmptyString => [EmptyString]
  | String c s' =>
      if Ascii.eqb c sep then EmptyString :: strings_Split s' sep
      else match strings_Split s' sep with
           | [] => [String c EmptyString]
           | piece :: pieces => String c piece :: pieces
           end
  end.

(** The number of bytes of [s] equal to [c]. *)
Fixpoint countByte (c : ascii) (s : string) : nat :=
  match s with
  | EmptyString => 0%nat
  | String c' s' => ((if Ascii.eqb c' c then 1 else 0) + countByte c s')%nat
  end.

(** [publicKey]: the type switch on the private key; [None] is Go's nil. *)
Definition publicKey (priv : PrivateKey) : option PublicKey :=
  match priv with
  | RSAPrivateKey k => Some (RSAPublicKey (rsa_Public k))
  | ECDSAPrivateKey k => Some (ECDSAPublicKey (ecdsa_Public k))
  | Ed25519PrivateKey k => Some (Ed25519PublicKey (ed25519_Public k))
  | ECDHPrivateKey _ => None
  end.

(** The type assertion of [priv] to a pointer to [rsa.PrivateKey]: its
    second result. *)
Definition isRSA (priv : PrivateKey) : bool :=
  match priv with
  | RSAPrivateKey _ => true
  | _ => false
  end.

Section Package.

Context {W : Type} (L : Lib W).

(** [ParsePemCertFile]. *)
Definition ParsePemCertFile (path : string) : M W Certificate :=
  r <- call (os_ReadFile_call path) (os_ReadFile L path) ;;
  der <- orErrorf "failed to read file: " r ;;
  match fst (pem_Decode L der) with
  | None => fail "failed to parse certificate PEM"
  | Some block =>
      if negb (Block_Type block =? "CERTIFICATE")%string
      then fail "failed to parse certificate PEM"
      else
        parentCert <- orErrorf "failed to parse DER data: "
                        (x509_ParseCertificate L (Block_Bytes block)) ;;
        ret parentCert
  end.

(** [ParsePemKeyFile]. *)
Definition ParsePemKeyFile (path : string) : M W PrivateKey :=
  r <- call (os_ReadFile_call path) (os_ReadFile L path) ;;
  der <- orErrorf "failed to read file: " r ;;
  match fst (pem_Decode L der) with
  | None => fail "failed to parse key PEM"
  | Some block =>
      if negb (Block_Type block =? "PRIVATE KEY")%string
      then fail "failed to parse key PEM"
      else
        pkey <- orErrorf "failed to parse DER data: "
                  (x509_ParsePKCS8PrivateKey L (Block_Bytes block)) ;;
        ret pkey
  end.

(** [Verify]. *)
Definition Verify (rootCertPath certPath dnsName : string) : M W unit :=
  let roots := x509_NewCertPool in
  rootCert <- ParsePemCertFile rootCertPath ;;
  let roots := CertPool_AddCert roots rootCert in
  cert <- ParsePemCertFile certPath ;;
  let opts := {| DNSName := dnsName;
                 Intermediates := None;
                 Roots := Some roots;
                 CurrentTime := None;
                 KeyUsages := [] |} in
  r <- call (Certificate_Verify_call cert opts) (Certificate_Verify L cert opts) ;;
  _ <- orErrorf "failed to verify certificate: " r ;;
  ret tt.

(** The switch on [o.ecdsaCurve] at the head of [Generate]: it leaves the
    pair [(priv, err)], or returns from [Generate] in its default case. *)
Definition generateKey (o : options) : M W (result PrivateKey) :=
  if (ecdsaCurve o =? "")%string then
    if ed25519Key o then
      r <- call ed25519_GenerateKey_call (ed25519_GenerateKey L) ;;
      ret (match r with
           | Ok (_, priv) => Ok (Ed25519PrivateKey priv)
           | Err e => Err e
           end)
    else
      r <- call (rsa_GenerateKey_call (rsaBits o))
                (rsa_GenerateKey L (rsaBits o)) ;;
      ret (match r with Ok k => Ok (RSAPrivateKey k) | Err e => Err e end)
  else if (ecdsaCurve o =? CurveP224)%string then
    r <- call (ecdsa_GenerateKey_call elliptic_P224)
              (ecdsa_GenerateKey L elliptic_P224) ;;
    ret (match r with Ok k => Ok (ECDSAPrivateKey k) | Err e => Err e end)
  else if (ecdsaCurve o =? CurveP256)%string then
    r <- call (ecdsa_GenerateKey_call elliptic_P256)
              (ecdsa_GenerateKey L elliptic_P256) ;;
    ret (match r with Ok k => Ok (ECDSAPrivateKey k) | Err e => Err e end)
  else if (ecdsaCurve o =? CurveP384)%string then
    r <- call (ecdsa_GenerateKey_call elliptic_P384)
              (ecdsa_GenerateKey L elliptic_P384) ;;
    ret (match r with Ok k => Ok (ECDSAPrivateKey k) | Err e => Err e end)
  else if (ecdsaCurve o =? CurveP521)%string then
    r <- call (ecdsa_GenerateKey_call elliptic_P521)
              (ecdsa_GenerateKey L elliptic_P521) ;;
    ret (match r with Ok k => Ok (ECDSAPrivateKey k) | Err e => Err e end)
  else
    fail ("unrecognized elliptic curve: " ++ fmt_q L (ecdsaCurve o)).

(** The body of the loop over [hosts] in [Generate]. *)
Definition addHost (template : Certificate) (h : string) : Certificate :=
  match net_ParseIP L h with
  | Some ip => set_IPAddresses template (IPAddresses template ++ [ip])%list
  | None => set_DNSNames template (DNSNames template ++ [h])%list
  end.

(** [Generate]. *)
Definition Generate (host dest : string) (opts : list Option) : M W unit :=
  if len0 host then fail "missing required host parameter" else
  let o := applyOptions opts initOptions in
  r <- generateKey o ;;
  priv <- orErrorf "failed to generate private key: " r ;;
  let keyUsage := x509_KeyUsageDigitalSignature in
  let keyUsage :=
    if isRSA priv then Z.lor keyUsage x509_KeyUsageKeyEncipherment
    else keyUsage in
  notBefore <-
    (if len0 (validFrom o) then call time_Now_call (time_Now L)
     else orErrorf "failed to parse creation date: "
            (time_Parse L "Jan 2 15:04:05 2006" (validFrom o))) ;;
  let notAfter := Time_Add notBefore (validFor o) in
  let serialNumberLimit := Z.shiftl 1 128 in
  r <- call (rand_Int_call serialNumberLimit) (rand_Int L serialNumberLimit) ;;
  serialNumber <- orErrorf "failed to generate serial number: " r ;;
  let template :=
    {| Raw := [];
       SerialNumber := serialNumber;
       Subject_Organization := ["Acme Co"];
       NotBefore := notBefore;
       NotAfter := notAfter;
       KeyUsage := keyUsage;
       ExtKeyUsage := [x509_ExtKeyUsageServerAuth];
       BasicConstraintsValid := true;
       IsCA := false;
       DNSNames := [];
       IPAddresses := [] |} in
  let hosts := strings_Split host "," in
  let template := fold_left addHost hosts template in
  let template :=
    if isCA o
    then set_KeyUsage (set_IsCA template true)
           (Z.lor (KeyUsage template) x509_KeyUsageCertSign)
    else template in
  signer <-
    (if negb (len0 (parentCert o)) then
       parentCert <- ParsePemCertFile (parentCert o) ;;
       parentKey <- ParsePemKeyFile (parentKey o) ;;
       ret (parentCert, parentKey)
     else ret (template, priv)) ;;
  let '(parentCert, parentKey) := signer in
  r <- call (x509_CreateCertificate_call template parentCert
               (publicKey priv) parentKey)
            (x509_CreateCertificate L template parentCert
               (publicKey priv) parentKey) ;;
  derBytes <- orErrorf "failed to create certificate: " r ;;
  let certPath := dest ++ "/" ++ certFileName o in
  r <- call (os_Create_call certPath) (os_Create L certPath) ;;
  certOut <- orErrorf "failed to open cert.pem for writing: " r ;;
  let certBlock := {| Block_Type := "CERTIFICATE";
                      Block_Headers := [];
                      Block_Bytes := derBytes |} in
  r <- call (pem_Encode_call certOut certBlock)
            (pem_Encode L certOut certBlock) ;;
  _ <- orErrorf "failed to write data to cert.pem: " r ;;
  r <- call (File_Close_call certOut) (File_Close L certOut) ;;
  _ <- orErrorf "error closing cert.pem: " r ;;
  let keyPath := dest ++ "/" ++ keyFileName o in
  let keyFlag := Z.lor (Z.lor os_O_WRONLY os_O_CREATE) os_O_TRUNC in
  r <- call (os_OpenFile_call keyPath keyFlag mode_0600)
            (os_OpenFile L keyPath keyFlag mode_0600) ;;
  keyOut <- orErrorf "failed to open key.pem for writing: " r ;;
  privBytes <- orErrorf "unable to marshal private key: "
                 (x509_MarshalPKCS8PrivateKey L priv) ;;
  let keyBlock := {| Block_Type := "PRIVATE KEY";
                     Block_Headers := [];
                     Block_Bytes := privBytes |} in
  r <- call (pem_Encode_call keyOut keyBlock)
            (pem_Encode L keyOut keyBlock) ;;
  _ <- orErrorf "failed to write data to key.pem: " r ;;
  r <- call (File_Close_call keyOut) (File_Close L keyOut) ;;
  _ <- orErrorf "error closing key.pem: " r ;;
  ret tt.

End Package.

(* ===================================================================== *)
(** ** The blocks of [Generate]

    [Generate] is one long function.  To reason about it, its blocks are
    named: each definition below is a piece of the body of [Generate]
    above, and [Generate_staged] shows that putting the pieces back
    together gives [Generate] itself. *)
(* ===================================================================== *)

Section Stages.

Context {W : Type} (L : Lib W).

(** The bound handed to [rand.Int]: [1 << 128]. *)
Definition serialNumberLimit : Z := Z.shiftl 1 128.

(** The choice of [notBefore]. *)
Definition validityStart (o : options) : M W Time :=
  if len0 (validFrom o) then call time_Now_call (time_Now L)
  else orErrorf "failed to parse creation date: "
         (time_Parse L "Jan 2 15:04:05 2006" (validFrom o)).

(** The template as it stands when it is handed to
    [x509.CreateCertificate]: the key usage, the composite literal, the
    loop over the hosts and the CA flag. *)
Definition buildTemplate (o : options) (host : string) (priv : PrivateKey)
    (notBefore : Time) (serialNumber : Z) : Certificate :=
  let keyUsage := x509_KeyUsageDigitalSignature in
  let keyUsage :=
    if isRSA priv then Z.lor keyUsage x509_KeyUsageKeyEncipherment
    else keyUsage in
  let template :=
    {| Raw := [];
       SerialNumber := serialNumber;
       Subject_Organization := ["Acme Co"];
       NotBefore := notBefore;
       NotAfter := Time_Add notBefore (validFor o);
       KeyUsage := keyUsage;
       ExtKeyUsage := [x509_ExtKeyUsageServerAuth];
       BasicConstraintsValid := true;
       IsCA := false;
       DNSNames := [];
       IPAddresses := [] |} in
  let template := fold_left (addHost L) (strings_Split host ",") template in
  if isCA o
  then set_KeyUsage (set_IsCA template true)
         (Z.lor (KeyUsage template) x509_KeyUsageCertSign)
  else template.

(** What [ParsePemCertFile] returns, given what [os.ReadFile] returned:
    the function after its first statement. *)
Definition decodeCert (r : result bytes) : result Certificate :=
  match r with
  | Err e => Err ("failed to read file: " ++ e)
  | Ok der =>
      match fst (pem_Decode L der) with
      | None => Err "failed to parse certificate PEM"
      | Some block =>
          if negb (Block_Type block =? "CERTIFICATE")%string
          then Err "failed to parse certificate PEM"
          else match x509_ParseCertificate L (Block_Bytes block) with
               | Ok parentCert => Ok parentCert
               | Err e => Err ("failed to parse DER data: " ++ e)
               end
      end
  end.

(** The same for [ParsePemKeyFile]. *)
Definition decodeKey (r : result bytes) : result PrivateKey :=
  match r with
  | Err e => Err ("failed to read file: " ++ e)
  | Ok der =>
      match fst (pem_Decode L der) with
      | None => Err "failed to parse key PEM"
      | Some block =>
          if negb (Block_Type block =? "PRIVATE KEY")%string
          then Err "failed to parse key PEM"
          else match x509_ParsePKCS8PrivateKey L (Block_Bytes block) with
               | Ok pkey => Ok pkey
               | Err e => Err ("failed to parse DER data: " ++ e)
               end
      end
  end.

(** The three statements of a loader that can fail: reading the file,
    finding a PEM block of the expected type, parsing its bytes. *)
Inductive LoadStep : Type := ReadStep | PemStep | DerStep.

(** The statement at which [ParsePemCertFile] fails, given what
    [os.ReadFile] returned; [None] when it succeeds. *)
Definition certStep (r : result bytes) : option LoadStep :=
  match r with
  | Err _ => Some ReadStep
  | Ok der =>
      match fst (pem_Decode L der) with
      | None => Some PemStep
      | Some block =>
          if negb (Block_Type block =? "CERTIFICATE")%string
          then Some PemStep
          else match x509_ParseCertificate L (Block_Bytes block) with
               | Ok _ => None
               | Err _ => Some DerStep
               end
      end
  end.

(** The same for [ParsePemKeyFile]. *)
Definition keyStep (r : result bytes) : option LoadStep :=
  match r with
  | Err _ => Some ReadStep
  | Ok der =>
      match fst (pem_Decode L der) with
      | None => Some PemStep
      | Some block =>
          if negb (Block_Type block =? "PRIVATE KEY")%string
          then Some PemStep
          else match x509_ParsePKCS8PrivateKey L (Block_Bytes block) with
               | Ok _ => None
               | Err _ => Some DerStep
               end
      end
  end.

(** The choice of issuer certificate and signing key. *)
Definition loadSigner (o : options) (template : Certificate)
    (priv : PrivateKey) : M W (Certificate * PrivateKey) :=
  if negb (len0 (parentCert o)) then
    parentCert <- ParsePemCertFile L (parentCert o) ;;
    parentKey <- ParsePemKeyFile L (parentKey o) ;;
    ret (parentCert, parentKey)
  else ret (template, priv).

(** The paths, flags and PEM blocks of the two output files. *)
Definition certPath (dest : string) (o : options) : string :=
  dest ++ "/" ++ certFileName o.
Definition keyPath (dest : string) (o : options) : string :=
  dest ++ "/" ++ keyFileName o.
Definition keyFlag : Z := Z.lor (Z.lor os_O_WRONLY os_O_CREATE) os_O_TRUNC.
Definition certBlock (derBytes : bytes) : Block :=
  {| Block_Type := "CERTIFICATE"; Block_Headers := [];
     Block_Bytes := derBytes |}.
Definition keyBlock (privBytes : bytes) : Block :=
  {| Block_Type := "PRIVATE KEY"; Block_Headers := [];
     Block_Bytes := privBytes |}.

(** The writing of the two files, from [os.Create] to the end. *)
Definition persist (dest : string) (o : options) (priv : PrivateKey)
    (derBytes : bytes) : M W unit :=
  r <- call (os_Create_call (certPath dest o)) (os_Create L (certPath dest o)) ;;
  certOut <- orErrorf "failed to open cert.pem for writing: " r ;;
  r <- call (pem_Encode_call certOut (certBlock derBytes))
            (pem_Encode L certOut (certBlock derBytes)) ;;
  _ <- orErrorf "failed to write data to cert.pem: " r ;;
  r <- call (File_Close_call certOut) (File_Close L certOut) ;;
  _ <- orErrorf "error closing cert.pem: " r ;;
  r <- call (os_OpenFile_call (keyPath dest o) keyFlag mode_0600)
            (os_OpenFile L (keyPath dest o) keyFlag mode_0600) ;;
  keyOut <- orErrorf "failed to open key.pem for writing: " r ;;
  privBytes <- orErrorf "unable to marshal private key: "
                 (x509_MarshalPKCS8PrivateKey L priv) ;;
  r <- call (pem_Encode_call keyOut (keyBlock privBytes))
            (pem_Encode L keyOut (keyBlock privBytes)) ;;
  _ <- orErrorf "failed to write data to key.pem: " r ;;
  r <- call (File_Close_call keyOut) (File_Close L keyOut) ;;
  _ <- orErrorf "error closing key.pem: " r ;;
  ret tt.

(** The cases of the switch in [generateKey] that name a curve. *)
Definition curveTable : list (string * Curve) :=
  [(CurveP224, elliptic_P224); (CurveP256, elliptic_P256);
   (CurveP384, elliptic_P384); (CurveP521, elliptic_P521)].

(** Is the subject public key handed to [x509.CreateCertificate] an RSA
    key? *)
Definition isRSAPublic (pub : option PublicKey) : bool :=
  match pub with
  | Some (RSAPublicKey _) => true
  | _ => false
  end.

(** The tokens of a host list that [net.ParseIP] accepts, parsed, and the
    tokens it does not accept. *)
Definition ipTokens (tokens : list string) : list IP :=
  flat_map (fun h => match net_ParseIP L h with
                     | Some ip => [ip]
                     | None => []
                     end) tokens.
Definition dnsTokens (tokens : list string) : list string :=
  filter (fun h => match net_ParseIP L h with
                   | Some _ => false
                   | None => true
                   end) tokens.

(** The error texts of [Generate] and of the two loaders: the fixed
    ones, and the prefixes put before the error of a collaborator. *)
Definition fixedErrors : list error :=
  ["missing required host parameter";
   "failed to parse certificate PEM";
   "failed to parse key PEM"].

Definition wrapPrefixes : list string :=
  ["failed to generate private key: ";
   "failed to parse creation date: ";
   "failed to generate serial number: ";
   "failed to read file: ";
   "failed to parse DER data: ";
   "failed to create certificate: ";
   "failed to open cert.pem for writing: ";
   "failed to write data to cert.pem: ";
   "error closing cert.pem: ";
   "failed to open key.pem for writing: ";
   "unable to marshal private key: ";
   "failed to write data to key.pem: ";
   "error closing key.pem: "].

(** The prefixes [Generate] itself puts before a collaborator's error:
    those of [wrapPrefixes] that are not a loader's. *)
Definition ownPrefixes : list string :=
  ["failed to generate private key: ";
   "failed to parse creation date: ";
   "failed to generate serial number: ";
   "failed to create certificate: ";
   "failed to open cert.pem for writing: ";
   "failed to write data to cert.pem: ";
   "error closing cert.pem: ";
   "failed to open key.pem for writing: ";
   "unable to marshal private key: ";
   "failed to write data to key.pem: ";
   "error closing key.pem: "].

Definition catalogued (e : error) : Prop :=
  In e fixedErrors \/ exists p e', In p wrapPrefixes /\ e = p ++ e'.

(** The calls that generate a key. *)
Definition isKeyGen (ev : Event) : bool :=
  match ev with
  | ed25519_GenerateKey_call | rsa_GenerateKey_call _
  | ecdsa_GenerateKey_call _ => true
  | _ => false
  end.

(** The calls that sign a certificate. *)
Definition isSign (ev : Event) : bool :=
  match ev with
  | x509_CreateCertificate_call _ _ _ _ => true
  | _ => false
  end.

(** The calls that read a file. *)
Definition isRead (ev : Event) : bool :=
  match ev with
  | os_ReadFile_call _ => true
  | _ => false
  end.

(** The calls that create, write or close an output file. *)
Definition isWrite (ev : Event) : bool :=
  match ev with
  | os_Create_call _ | os_OpenFile_call _ _ _ | pem_Encode_call _ _
  | File_Close_call _ => true
  | _ => false
  end.

End Stages.

(* ===================================================================== *)
(** ** A small world to run the package in

    A stand-in for the standard library, used to run the functions above
    on concrete inputs: a file system held as an association list, a fixed
    clock, fixed key material, and toy PEM and DER codecs. *)
(* ===================================================================== *)

Module Sample.

Record World : Type := mkWorld {
  files    : list (string * bytes);
  readonly : list string;
  clock    : Time
}.

Definition lookup (name : string) (fs : list (string * bytes)) : option bytes :=
  match find (fun p => String.eqb (fst p) name) fs with
  | Some p => Some (snd p)
  | None => None
  end.

Definition store (name : string) (content : bytes)
    (fs : list (string * bytes)) : list (string * bytes) :=
  (name, content) :: filter (fun p => negb (String.eqb (fst p) name)) fs.

Definition denied (name : string) (w : World) : bool :=
  existsb (String.eqb name) (readonly w).

Definition open (name : string) (w : World) : result File * World :=
  if denied name w then (Err ("open " ++ name ++ ": permission denied"), w)
  else (Ok (mkFile name 3),
        mkWorld (store name [] (files w)) (readonly w) (clock w)).

Definition newline : Byte.byte := Byte.x0a.

Definition encodeBlock (b : Block) : bytes :=
  (list_byte_of_string (Block_Type b) ++ newline :: Block_Bytes b)%list.

Fixpoint decodeBlock (acc : bytes) (data : bytes) : option Block * bytes :=
  match data with
  | [] => (None, rev acc)
  | c :: rest =>
      if Byte.eqb c newline
      then (Some (mkBlock (string_of_list_byte (rev acc)) [] rest), [])
      else decodeBlock (c :: acc) rest
  end.

Definition toyDER : bytes := [Byte.x30; Byte.x82].

Definition toyRSA : rsa_PrivateKey :=
  {| rsa_Public := {| rsa_N := 3233; rsa_E := 17 |}; rsa_D := 413 |}.
Definition toyECDSA (c : Curve) : ecdsa_PrivateKey :=
  {| ecdsa_Public := {| ecdsa_Curve := c; ecdsa_X := 5; ecdsa_Y := 1 |};
     ecdsa_D := 7 |}.
Definition toyEdPublic : ed25519_PublicKey := repeat Byte.x01 32.
Definition toyEd : ed25519_PrivateKey := (repeat Byte.x02 32 ++ toyEdPublic)%list.

Definition quote : string := String (ascii_of_nat 34) EmptyString.

Definition lib : Lib World :=
  {| ed25519_GenerateKey := fun w => (Ok (toyEdPublic, toyEd), w);
     rsa_GenerateKey := fun bits w =>
       if bits <? 2 then (Err "crypto/rsa: too few bits", w)
       else (Ok toyRSA, w);
     ecdsa_GenerateKey := fun c w => (Ok (toyECDSA c), w);
     time_Now := fun w => (clock w, w);
     time_Parse := fun layout value =>
       if String.eqb value "Jan 1 00:00:00 2024"
       then Ok 1704067200000000000
       else Err ("parsing time " ++ quote ++ value ++ quote);
     rand_Int := fun max w => (Ok 42, w);
     net_ParseIP := fun s =>
       if String.eqb s "127.0.0.1"
       then Some (repeat Byte.x00 10 ++
                  [Byte.xff; Byte.xff; Byte.x7f; Byte.x00; Byte.x00; Byte.x01])%list
       else if String.eqb s "::1"
       then Some (repeat Byte.x00 15 ++ [Byte.x01])%list
       else None;
     os_ReadFile := fun name w =>
       match lookup name (files w) with
       | Some content => (Ok content, w)
       | None => (Err ("open " ++ name ++ ": no such file or directory"), w)
       end;
     pem_Decode := decodeBlock [];
     x509_ParseCertificate := fun der =>
       match der with
       | Byte.x30 :: _ =>
           Ok (mkCertificate der 0 [] 0 0 0 [] false false [] [])
       | _ => Err "x509: malformed certificate"
       end;
     x509_ParsePKCS8PrivateKey := fun der =>
       match der with
       | [Byte.x01] => Ok (RSAPrivateKey toyRSA)
       | [Byte.x02] => Ok (ECDSAPrivateKey (toyECDSA elliptic_P256))
       | [Byte.x03] => Ok (Ed25519PrivateKey toyEd)
       | _ => Err "x509: failed to parse private key"
       end;
     x509_CreateCertificate := fun template parent pub priv w =>
       (Ok toyDER, w);
     os_Create := open;
     os_OpenFile := fun name flag perm => open name;
     pem_Encode := fun f b w =>
       match lookup (File_Name f) (files w) with
       | Some content =>
           (Ok tt, mkWorld (store (File_Name f) (content ++ encodeBlock b)%list
                              (files w)) (readonly w) (clock w))
       | None => (Err "write: bad file descriptor", w)
       end;
     File_Close := fun f w => (Ok tt, w);
     x509_MarshalPKCS8PrivateKey := fun priv =>
       match priv with
       | RSAPrivateKey _ => Ok [Byte.x01]
       | ECDSAPrivateKey _ => Ok [Byte.x02]
       | Ed25519PrivateKey _ => Ok [Byte.x03]
       | ECDHPrivateKey _ => Ok [Byte.x04]
       end;
     Certificate_Verify := fun c opts w =>
       match Roots opts with
       | Some (root :: _) => (Ok [[c; root]], w)
       | _ => (Err "x509: certificate signed by unknown authority", w)
       end;
     fmt_q := fun s => quote ++ s ++ quote |}.

(** An empty directory, and one in which [out/key.pem] cannot be opened. *)
Definition empty : World := mkWorld [] [] 1700000000000000000.
Definition locked : World := mkWorld [] ["out/key.pem"] 1700000000000000000.

(** The directory after a CA certificate and key have been generated into
    it, as the package's tests do before signing by a parent. *)
Definition caOptions : list Option :=
  [WithCA; WithCertFileName "ca_cert.pem"; WithKeyFileName "ca_key.pem"].
Definition withCA : World :=
  world (Generate lib "cadomain.cert" "out" caOptions empty).
Definition byParent : list Option :=
  [WithSignByParent "out/ca_cert.pem" "out/ca_key.pem"].

(** The same directory with a file that holds no PEM block. *)
Definition notes : bytes := list_byte_of_string "no block here".
Definition withNotes : World :=
  mkWorld (store "out/notes.txt" notes (files withCA))
          (readonly withCA) (clock withCA).

End Sample.

(* ===================================================================== *)
(** ** Running a computation: the equations of the monad *)
(* ===================================================================== *)

Section Runs.

Context {W : Type}.

Lemma bind_run {A B} (m : M W A) (f : A -> M W B) w :
  bind m f w =
  match m w with
  | (Ok a, w1, t1) =>
      match f a w1 with (r, w2, t2) => (r, w2, (t1 ++ t2)%list) end
  | (Err e, w1, t1) => (Err e, w1, t1)
  end.
Proof. reflexivity. Qed.

Lemma bind_orErrorf_Ok {A B} p (a : A) (f : A -> M W B) w :
  bind (orErrorf p (Ok a)) f w = f a w.
Proof. unfold bind; simpl. now destruct (f a w) as [[r w2] t2]. Qed.

Lemma bind_orErrorf_Err {A B} p e (f : A -> M W B) w :
  bind (orErrorf p (Err e)) f w = (Err (p ++ e), w, []).
Proof. reflexivity. Qed.

Lemma bind_call {A B} ev (g : W -> A * W) (f : A -> M W B) w :
  bind (call ev g) f w =
  match g w with
  | (a, w1) => match f a w1 with (r, w2, t2) => (r, w2, ev :: t2) end
  end.
Proof. unfold bind, call. now destruct (g w) as [a w1]. Qed.

End Runs.

(* ===================================================================== *)
(** ** Facts about the options *)
(* ===================================================================== *)

Lemma applyOptions_app opts1 opts2 o :
  applyOptions (opts1 ++ opts2)%list o = applyOptions opts2 (applyOptions opts1 o).
Proof. apply fold_left_app. Qed.

Lemma writes_frame opt fs :
  writes opt fs ->
  forall o f, ~ In f fs -> getField f (opt o) = getField f o.
Proof.
  intros Hw o f Hf.
  destruct Hw; destruct f; try reflexivity; exfalso; apply Hf; simpl; tauto.
Qed.


(** An exported option leaves the curve selector alone or sets it to one
    of the four constants. *)
Lemma exported_curve opt :
  exported opt ->
  forall o, ecdsaCurve (opt o) = ecdsaCurve o \/
            In (ecdsaCurve (opt o)) recognizedCurves.
Proof.
  intros [fs Hw] o. destruct Hw; simpl; auto; right; simpl; tauto.
Qed.

Lemma applyOptions_curve opts :
  Forall exported opts ->
  forall o, ecdsaCurve (applyOptions opts o) = ecdsaCurve o \/
            In (ecdsaCurve (applyOptions opts o)) recognizedCurves.
Proof.
  induction 1 as [|opt opts Hopt _ IH]; intros o; simpl; auto.
  destruct (IH (opt o)) as [Heq|Hin]; auto.
  rewrite Heq. apply exported_curve, Hopt.
Qed.

Lemma resolve_curve opts :
  Forall exported opts ->
  ecdsaCurve (resolve opts) = "" \/ In (ecdsaCurve (resolve opts)) recognizedCurves.
Proof. intros H. apply (applyOptions_curve opts H initOptions). Qed.

(* ===================================================================== *)
(** ** The runs of the functions, stage by stage *)
(* ===================================================================== *)

Section Facts.

Context {W : Type} (L : Lib W).

Lemma ParsePemCertFile_run path w :
  ParsePemCertFile L path w =
  (decodeCert L (fst (os_ReadFile L path w)), snd (os_ReadFile L path w),
   [os_ReadFile_call path]).
Proof.
  unfold ParsePemCertFile. rewrite bind_call.
  destruct (os_ReadFile L path w) as [[der|e] w1]; [ | reflexivity].
  rewrite bind_orErrorf_Ok. simpl.
  destruct (fst (pem_Decode L der)) as [block|]; [ | reflexivity].
  destruct (negb _); [reflexivity | ].
  now destruct (x509_ParseCertificate L (Block_Bytes block)).
Qed.

Lemma ParsePemKeyFile_run path w :
  ParsePemKeyFile L path w =
  (decodeKey L (fst (os_ReadFile L path w)), snd (os_ReadFile L path w),
   [os_ReadFile_call path]).
Proof.
  unfold ParsePemKeyFile. rewrite bind_call.
  destruct (os_ReadFile L path w) as [[der|e] w1]; [ | reflexivity].
  rewrite bind_orErrorf_Ok. simpl.
  destruct (fst (pem_Decode L der)) as [block|]; [ | reflexivity].
  destruct (negb _); [reflexivity | ].
  now destruct (x509_ParsePKCS8PrivateKey L (Block_Bytes block)).
Qed.

Lemma len0_true s : len0 s = true <-> s = "".
Proof. destruct s; simpl; split; congruence. Qed.

Lemma len0_false s : len0 s = false <-> s <> "".
Proof. destruct s; simpl; split; congruence. Qed.

Lemma loadSigner_self o template priv w :
  parentCert o = "" ->
  loadSigner L o template priv w = (Ok (template, priv), w, []).
Proof. intros H. unfold loadSigner. now rewrite H. Qed.

Lemma loadSigner_parent o template priv w :
  parentCert o <> "" ->
  loadSigner L o template priv w =
  let r1 := os_ReadFile L (parentCert o) w in
  match decodeCert L (fst r1) with
  | Err e => (Err e, snd r1, [os_ReadFile_call (parentCert o)])
  | Ok pc =>
      let r2 := os_ReadFile L (parentKey o) (snd r1) in
      (match decodeKey L (fst r2) with
       | Err e => Err e
       | Ok pk => Ok (pc, pk)
       end, snd r2,
       [os_ReadFile_call (parentCert o); os_ReadFile_call (parentKey o)])
  end.
Proof.
  intros H. apply len0_false in H. unfold loadSigner. rewrite H.
  change (negb false) with true. cbv iota. rewrite bind_run, ParsePemCertFile_run. cbv zeta.
  destruct (decodeCert L _) as [pc|e]; [ | reflexivity].
  cbv beta iota. rewrite bind_run, ParsePemKeyFile_run.
  now destruct (decodeKey L _) as [pk|e].
Qed.

Lemma loadSigner_trace o template priv w :
  Forall (fun ev => isRead ev = true) (trace (loadSigner L o template priv w)).
Proof.
  destruct (len0 (parentCert o)) eqn:H.
  - apply len0_true in H. rewrite loadSigner_self by assumption. constructor.
  - apply len0_false in H. rewrite loadSigner_parent by assumption. cbv zeta.
    destruct (decodeCert L _); simpl; repeat constructor.
Qed.

Lemma validityStart_trace o w :
  Forall (fun ev => ev = time_Now_call) (trace (validityStart L o w)).
Proof.
  unfold validityStart. destruct (len0 (validFrom o)).
  - unfold call. destruct (time_Now L w). repeat constructor.
  - destruct (time_Parse L _ _); constructor.
Qed.

Lemma validityStart_now o w :
  validFrom o = "" ->
  validityStart L o w = (Ok (fst (time_Now L w)), snd (time_Now L w), [time_Now_call]).
Proof.
  intros H. unfold validityStart, call. rewrite H. simpl.
  now destruct (time_Now L w).
Qed.

Lemma validityStart_parse o w :
  validFrom o <> "" ->
  validityStart L o w =
  (match time_Parse L "Jan 2 15:04:05 2006" (validFrom o) with
   | Ok t => Ok t
   | Err e => Err ("failed to parse creation date: " ++ e)
   end, w, []).
Proof.
  intros H. apply len0_false in H. unfold validityStart. rewrite H.
  now destruct (time_Parse L _ _).
Qed.

(** *** The key-generation switch *)

Ltac eval_eqb :=
  repeat match goal with
  | |- context [String.eqb ?a ?b] =>
      let v := eval vm_compute in (String.eqb a b) in
      change (String.eqb a b) with v
  end; cbv iota.

Ltac run_call :=
  rewrite bind_call;
  match goal with
  | |- context [match ?x with (_, _) => _ end] => destruct x
  end; reflexivity.

Lemma generateKey_ed25519 o w :
  ecdsaCurve o = "" -> ed25519Key o = true ->
  generateKey L o w =
  (Ok (match fst (ed25519_GenerateKey L w) with
       | Ok (_, priv) => Ok (Ed25519PrivateKey priv)
       | Err e => Err e
       end),
   snd (ed25519_GenerateKey L w), [ed25519_GenerateKey_call]).
Proof.
  intros Hc He. unfold generateKey. rewrite Hc, He. eval_eqb.
  run_call.
Qed.

Lemma generateKey_rsa o w :
  ecdsaCurve o = "" -> ed25519Key o = false ->
  generateKey L o w =
  (Ok (match fst (rsa_GenerateKey L (rsaBits o) w) with
       | Ok k => Ok (RSAPrivateKey k)
       | Err e => Err e
       end),
   snd (rsa_GenerateKey L (rsaBits o) w), [rsa_GenerateKey_call (rsaBits o)]).
Proof.
  intros Hc He. unfold generateKey. rewrite Hc, He. eval_eqb.
  run_call.
Qed.

Lemma generateKey_ecdsa o w name c :
  In (name, c) curveTable -> ecdsaCurve o = name ->
  generateKey L o w =
  (Ok (match fst (ecdsa_GenerateKey L c w) with
       | Ok k => Ok (ECDSAPrivateKey k)
       | Err e => Err e
       end),
   snd (ecdsa_GenerateKey L c w), [ecdsa_GenerateKey_call c]).
Proof.
  intros Hin Hc. unfold generateKey. rewrite Hc.
  simpl in Hin.
  destruct Hin as [H|[H|[H|[H|[]]]]]; inversion H; subst; eval_eqb;
    run_call.
Qed.

Lemma generateKey_unrecognized o w :
  ecdsaCurve o <> "" -> ~ In (ecdsaCurve o) recognizedCurves ->
  generateKey L o w =
  (Err ("unrecognized elliptic curve: " ++ fmt_q L (ecdsaCurve o)), w, []).
Proof.
  intros H0 Hn. unfold generateKey.
  destruct (String.eqb_spec (ecdsaCurve o) "") as [E|_]; [contradiction | ].
  destruct (String.eqb_spec (ecdsaCurve o) CurveP224) as [E|_];
    [exfalso; apply Hn; rewrite E; simpl; tauto | ].
  destruct (String.eqb_spec (ecdsaCurve o) CurveP256) as [E|_];
    [exfalso; apply Hn; rewrite E; simpl; tauto | ].
  destruct (String.eqb_spec (ecdsaCurve o) CurveP384) as [E|_];
    [exfalso; apply Hn; rewrite E; simpl; tauto | ].
  destruct (String.eqb_spec (ecdsaCurve o) CurveP521) as [E|_];
    [exfalso; apply Hn; rewrite E; simpl; tauto | ].
  reflexivity.
Qed.

(** The switch has exactly these cases. *)
Lemma generateKey_cases o :
  (ecdsaCurve o = "" /\ ed25519Key o = true) \/
  (ecdsaCurve o = "" /\ ed25519Key o = false) \/
  (exists c, In (ecdsaCurve o, c) curveTable) \/
  (ecdsaCurve o <> "" /\ ~ In (ecdsaCurve o) recognizedCurves).
Proof.
  destruct (String.eqb_spec (ecdsaCurve o) "") as [E|N0].
  { destruct (ed25519Key o); auto. }
  right; right.
  destruct (String.eqb_spec (ecdsaCurve o) CurveP224) as [E|N1].
  { left. exists elliptic_P224. rewrite E. simpl; tauto. }
  destruct (String.eqb_spec (ecdsaCurve o) CurveP256) as [E|N2].
  { left. exists elliptic_P256. rewrite E. simpl; tauto. }
  destruct (String.eqb_spec (ecdsaCurve o) CurveP384) as [E|N3].
  { left. exists elliptic_P384. rewrite E. simpl; tauto. }
  destruct (String.eqb_spec (ecdsaCurve o) CurveP521) as [E|N4].
  { left. exists elliptic_P521. rewrite E. simpl; tauto. }
  right. split; [assumption | ]. simpl. intuition congruence.
Qed.

Lemma generateKey_trace o w :
  Forall (fun ev => isKeyGen ev = true) (trace (generateKey L o w)).
Proof.
  destruct (generateKey_cases o) as [[Hc He]|[[Hc He]|[[c Hin]|[H0 Hn]]]].
  - rewrite generateKey_ed25519 by assumption. repeat constructor.
  - rewrite generateKey_rsa by assumption. repeat constructor.
  - rewrite (generateKey_ecdsa o w _ c Hin eq_refl). repeat constructor.
  - rewrite generateKey_unrecognized by assumption. constructor.
Qed.

(** *** Writing the two files *)

Lemma persist_unfold dest o priv derBytes w :
  persist L dest o priv derBytes w =
  let create := os_Create_call (certPath dest o) in
  let open := os_OpenFile_call (keyPath dest o) keyFlag mode_0600 in
  match os_Create L (certPath dest o) w with
  | (Err e, w1) =>
      (Err ("failed to open cert.pem for writing: " ++ e), w1, [create])
  | (Ok certOut, w1) =>
  let encode := pem_Encode_call certOut (certBlock derBytes) in
  let close := File_Close_call certOut in
  match pem_Encode L certOut (certBlock derBytes) w1 with
  | (Err e, w2) =>
      (Err ("failed to write data to cert.pem: " ++ e), w2, [create; encode])
  | (Ok _, w2) =>
  match File_Close L certOut w2 with
  | (Err e, w3) =>
      (Err ("error closing cert.pem: " ++ e), w3, [create; encode; close])
  | (Ok _, w3) =>
  match os_OpenFile L (keyPath dest o) keyFlag mode_0600 w3 with
  | (Err e, w4) =>
      (Err ("failed to open key.pem for writing: " ++ e), w4,
       [create; encode; close; open])
  | (Ok keyOut, w4) =>
  match x509_MarshalPKCS8PrivateKey L priv with
  | Err e =>
      (Err ("unable to marshal private key: " ++ e), w4,
       [create; encode; close; open])
  | Ok privBytes =>
  let encodeKey := pem_Encode_call keyOut (keyBlock privBytes) in
  let closeKey := File_Close_call keyOut in
  match pem_Encode L keyOut (keyBlock privBytes) w4 with
  | (Err e, w5) =>
      (Err ("failed to write data to key.pem: " ++ e), w5,
       [create; encode; close; open; encodeKey])
  | (Ok _, w5) =>
  match File_Close L keyOut w5 with
  | (Err e, w6) =>
      (Err ("error closing key.pem: " ++ e), w6,
       [create; encode; close; open; encodeKey; closeKey])
  | (Ok _, w6) =>
      (Ok tt, w6, [create; encode; close; open; encodeKey; closeKey])
  end end end end end end end.
Proof.
  unfold persist. cbv zeta.
  rewrite bind_call.
  destruct (os_Create L _ w) as [[certOut|e] w1]; [ | reflexivity].
  rewrite bind_orErrorf_Ok, bind_call.
  destruct (pem_Encode L certOut _ w1) as [[[]|e] w2]; [ | reflexivity].
  rewrite bind_orErrorf_Ok, bind_call.
  destruct (File_Close L certOut w2) as [[[]|e] w3]; [ | reflexivity].
  rewrite bind_orErrorf_Ok, bind_call.
  destruct (os_OpenFile L _ _ _ w3) as [[keyOut|e] w4]; [ | reflexivity].
  rewrite bind_orErrorf_Ok.
  destruct (x509_MarshalPKCS8PrivateKey L priv) as [privBytes|e];
    [ | reflexivity].
  rewrite bind_orErrorf_Ok, bind_call.
  destruct (pem_Encode L keyOut _ w4) as [[[]|e] w5]; [ | reflexivity].
  rewrite bind_orErrorf_Ok, bind_call.
  destruct (File_Close L keyOut w5) as [[[]|e] w6]; reflexivity.
Qed.

Lemma persist_trace dest o priv derBytes w :
  Forall (fun ev => isWrite ev = true)
         (trace (persist L dest o priv derBytes w)).
Proof.
  rewrite persist_unfold. cbv zeta.
  destruct (os_Create L _ w) as [[certOut|e] w1]; [ | repeat constructor].
  destruct (pem_Encode L certOut _ w1) as [[[]|e] w2]; [ | repeat constructor].
  destruct (File_Close L certOut w2) as [[[]|e] w3]; [ | repeat constructor].
  destruct (os_OpenFile L _ _ _ w3) as [[keyOut|e] w4]; [ | repeat constructor].
  destruct (x509_MarshalPKCS8PrivateKey L priv) as [privBytes|e];
    [ | repeat constructor].
  destruct (pem_Encode L keyOut _ w4) as [[[]|e] w5]; [ | repeat constructor].
  destruct (File_Close L keyOut w5) as [[[]|e] w6]; repeat constructor.
Qed.

(** *** [Generate], block by block *)

Lemma Generate_staged host dest opts :
  Generate L host dest opts =
  if len0 host then fail "missing required host parameter" else
  let o := resolve opts in
  r <- generateKey L o ;;
  priv <- orErrorf "failed to generate private key: " r ;;
  notBefore <- validityStart L o ;;
  r <- call (rand_Int_call serialNumberLimit) (rand_Int L serialNumberLimit) ;;
  serialNumber <- orErrorf "failed to generate serial number: " r ;;
  let template := buildTemplate L o host priv notBefore serialNumber in
  signer <- loadSigner L o template priv ;;
  let '(parentCert, parentKey) := signer in
  r <- call (x509_CreateCertificate_call template parentCert
               (publicKey priv) parentKey)
            (x509_CreateCertificate L template parentCert
               (publicKey priv) parentKey) ;;
  derBytes <- orErrorf "failed to create certificate: " r ;;
  persist L dest o priv derBytes.
Proof. reflexivity. Qed.

Lemma Generate_unfold host dest opts w :
  host <> "" ->
  Generate L host dest opts w =
  let o := resolve opts in
  let rand := rand_Int_call serialNumberLimit in
  match generateKey L o w with
  | (Err e, w1, t1) => (Err e, w1, t1)
  | (Ok (Err e), w1, t1) =>
      (Err ("failed to generate private key: " ++ e), w1, t1)
  | (Ok (Ok priv), w1, t1) =>
  match validityStart L o w1 with
  | (Err e, w2, t2) => (Err e, w2, (t1 ++ t2)%list)
  | (Ok notBefore, w2, t2) =>
  match rand_Int L serialNumberLimit w2 with
  | (Err e, w3) =>
      (Err ("failed to generate serial number: " ++ e), w3,
       (t1 ++ t2 ++ [rand])%list)
  | (Ok serialNumber, w3) =>
  let template := buildTemplate L o host priv notBefore serialNumber in
  match loadSigner L o template priv w3 with
  | (Err e, w4, t4) => (Err e, w4, (t1 ++ t2 ++ rand :: t4)%list)
  | (Ok (parentCert, parentKey), w4, t4) =>
  let sign := x509_CreateCertificate_call template parentCert
                (publicKey priv) parentKey in
  match x509_CreateCertificate L template parentCert
          (publicKey priv) parentKey w4 with
  | (Err e, w5) =>
      (Err ("failed to create certificate: " ++ e), w5,
       (t1 ++ t2 ++ rand :: t4 ++ [sign])%list)
  | (Ok derBytes, w5) =>
  match persist L dest o priv derBytes w5 with
  | (r, w6, t6) => (r, w6, (t1 ++ t2 ++ rand :: t4 ++ sign :: t6)%list)
  end end end end end end.
Proof.
  intros Hh. apply len0_false in Hh. rewrite Generate_staged, Hh. cbv zeta.
  rewrite bind_run.
  destruct (generateKey L (resolve opts) w)
    as [[[[priv|e]|e] w1] t1]; [ | | reflexivity].
  2:{ rewrite bind_orErrorf_Err, app_nil_r. reflexivity. }
  rewrite bind_orErrorf_Ok, bind_run.
  destruct (validityStart L (resolve opts) w1)
    as [[[nb|e] w2] t2]; [ | reflexivity].
  rewrite bind_call.
  destruct (rand_Int L serialNumberLimit w2) as [[sn|e] w3].
  2:{ rewrite bind_orErrorf_Err. reflexivity. }
  rewrite bind_orErrorf_Ok, bind_run.
  destruct (loadSigner L _ _ _ w3) as [[[[pc pk]|e] w4] t4]; [ | reflexivity].
  rewrite bind_call.
  destruct (x509_CreateCertificate L _ pc _ pk w4) as [[der|e] w5].
  2:{ rewrite bind_orErrorf_Err. reflexivity. }
  rewrite bind_orErrorf_Ok.
  destruct (persist L _ _ _ _ w5) as [[r w6] t6]. reflexivity.
Qed.

(** *** The template *)

Lemma addHosts_fields hosts : forall template,
  let t := fold_left (addHost L) hosts template in
  Raw t = Raw template /\ SerialNumber t = SerialNumber template /\
  Subject_Organization t = Subject_Organization template /\
  NotBefore t = NotBefore template /\ NotAfter t = NotAfter template /\
  KeyUsage t = KeyUsage template /\ ExtKeyUsage t = ExtKeyUsage template /\
  BasicConstraintsValid t = BasicConstraintsValid template /\
  IsCA t = IsCA template /\
  DNSNames t = (DNSNames template ++ dnsTokens L hosts)%list /\
  IPAddresses t = (IPAddresses template ++ ipTokens L hosts)%list.
Proof.
  induction hosts as [|h hosts IH]; intros template; cbv zeta.
  - simpl. rewrite !app_nil_r. repeat split.
  - simpl fold_left. specialize (IH (addHost L template h)). cbv zeta in IH.
    destruct IH as (H1 & H2 & H3 & H4 & H5 & H6 & H7 & H8 & H9 & H10 & H11).
    rewrite H1, H2, H3, H4, H5, H6, H7, H8, H9, H10, H11.
    unfold addHost, dnsTokens, ipTokens. simpl.
    destruct (net_ParseIP L h) as [ip|]; simpl;
      rewrite <- ?app_assoc; repeat split.
Qed.

Lemma buildTemplate_fields o host priv notBefore serialNumber :
  let t := buildTemplate L o host priv notBefore serialNumber in
  SerialNumber t = serialNumber /\
  Subject_Organization t = ["Acme Co"] /\
  NotBefore t = notBefore /\
  NotAfter t = Time_Add notBefore (validFor o) /\
  KeyUsage t =
    Z.lor (if isRSA priv
           then Z.lor x509_KeyUsageDigitalSignature x509_KeyUsageKeyEncipherment
           else x509_KeyUsageDigitalSignature)
          (if isCA o then x509_KeyUsageCertSign else 0) /\
  ExtKeyUsage t = [x509_ExtKeyUsageServerAuth] /\
  BasicConstraintsValid t = true /\
  IsCA t = isCA o /\
  DNSNames t = dnsTokens L (strings_Split host ",") /\
  IPAddresses t = ipTokens L (strings_Split host ",").
Proof.
  cbv zeta. unfold buildTemplate. cbv zeta.
  match goal with
  | |- context [fold_left (addHost L) ?hs ?t0] =>
      pose proof (addHosts_fields hs t0) as H; cbv zeta in H;
      set (t1 := fold_left (addHost L) hs t0) in *
  end.
  destruct H as (H1 & H2 & H3 & H4 & H5 & H6 & H7 & H8 & H9 & H10 & H11).
  simpl in H1, H2, H3, H4, H5, H6, H7, H8, H9, H10, H11.
  destruct (isCA o); simpl;
    rewrite ?H2, ?H3, ?H4, ?H5, ?H6, ?H7, ?H8, ?H9, ?H10, ?H11;
    repeat split; try reflexivity.
  now rewrite Z.lor_0_r.
Qed.

Lemma isRSAPublic_publicKey priv : isRSAPublic (publicKey priv) = isRSA priv.
Proof. now destruct priv. Qed.

(** *** The signing call *)

Lemma class_In (P : Event -> bool) ev t :
  Forall (fun ev => P ev = true) t -> In ev t -> P ev = true.
Proof. intros HF Hin. rewrite Forall_forall in HF. now apply HF. Qed.

Lemma now_In ev t :
  Forall (fun ev => ev = time_Now_call) t -> In ev t -> ev = time_Now_call.
Proof. intros HF Hin. rewrite Forall_forall in HF. now apply HF. Qed.

(** A signing call in the trace of [Generate] was reached through
    successful key generation, choice of the start date, serial number and
    choice of the signer, and carries the template built from them. *)
Lemma Generate_sign_inv host dest opts w t issuer pub signer :
  In (x509_CreateCertificate_call t issuer pub signer)
     (trace (Generate L host dest opts w)) ->
  let o := resolve opts in
  exists priv w1 t1 nb w2 t2 sn w3 w4 t4,
    host <> "" /\
    generateKey L o w = (Ok (Ok priv), w1, t1) /\
    validityStart L o w1 = (Ok nb, w2, t2) /\
    rand_Int L serialNumberLimit w2 = (Ok sn, w3) /\
    t = buildTemplate L o host priv nb sn /\
    pub = publicKey priv /\
    loadSigner L o t priv w3 = (Ok (issuer, signer), w4, t4).
Proof.
  intros Hin o.
  destruct (len0 host) eqn:Hh.
  { rewrite Generate_staged, Hh in Hin. destruct Hin. }
  apply len0_false in Hh.
  rewrite Generate_unfold in Hin by assumption. cbv zeta in Hin. fold o in Hin.
  pose proof (generateKey_trace o w) as Hk.
  destruct (generateKey L o w) as [[[[priv|e]|e] w1] t1] eqn:Eg;
    unfold trace in Hk; simpl in Hk, Hin;
    try (apply (class_In _ _ _ Hk) in Hin; discriminate Hin).
  pose proof (validityStart_trace o w1) as Hv.
  destruct (validityStart L o w1) as [[[nb|e] w2] t2] eqn:Ev;
    unfold trace in Hv; simpl in Hv, Hin.
  2:{ apply in_app_or in Hin. destruct Hin as [Hin|Hin].
      - apply (class_In _ _ _ Hk) in Hin; discriminate Hin.
      - apply (now_In _ _ Hv) in Hin; discriminate Hin. }
  destruct (rand_Int L serialNumberLimit w2) as [[sn|e] w3] eqn:Er;
    simpl in Hin.
  2:{ apply in_app_or in Hin. destruct Hin as [Hin|Hin].
      - apply (class_In _ _ _ Hk) in Hin; discriminate Hin.
      - apply in_app_or in Hin. destruct Hin as [Hin|[Hin|[]]].
        + apply (now_In _ _ Hv) in Hin; discriminate Hin.
        + discriminate Hin. }
  pose proof (loadSigner_trace o (buildTemplate L o host priv nb sn) priv w3)
    as Hl.
  destruct (loadSigner L o _ priv w3) as [[[[pc pk]|e] w4] t4] eqn:El;
    unfold trace in Hl; simpl in Hl, Hin.
  2:{ apply in_app_or in Hin. destruct Hin as [Hin|Hin].
      - apply (class_In _ _ _ Hk) in Hin; discriminate Hin.
      - apply in_app_or in Hin. destruct Hin as [Hin|[Hin|Hin]].
        + apply (now_In _ _ Hv) in Hin; discriminate Hin.
        + discriminate Hin.
        + apply (class_In _ _ _ Hl) in Hin; discriminate Hin. }
  assert (Hsign : x509_CreateCertificate_call t issuer pub signer =
                  x509_CreateCertificate_call
                    (buildTemplate L o host priv nb sn) pc (publicKey priv) pk).
  { destruct (x509_CreateCertificate L _ pc _ pk w4) as [[der|e] w5].
    - pose proof (persist_trace dest o priv der w5) as Hp.
      destruct (persist L dest o priv der w5) as [[r w6] t6];
        unfold trace in Hp; simpl in Hp, Hin.
      apply in_app_or in Hin. destruct Hin as [Hin|Hin].
      { apply (class_In _ _ _ Hk) in Hin; discriminate Hin. }
      apply in_app_or in Hin. destruct Hin as [Hin|[Hin|Hin]].
      { apply (now_In _ _ Hv) in Hin; discriminate Hin. }
      { discriminate Hin. }
      apply in_app_or in Hin. destruct Hin as [Hin|[Hin|Hin]].
      { apply (class_In _ _ _ Hl) in Hin; discriminate Hin. }
      { now symmetry. }
      apply (class_In _ _ _ Hp) in Hin; discriminate Hin.
    - simpl in Hin.
      apply in_app_or in Hin. destruct Hin as [Hin|Hin].
      { apply (class_In _ _ _ Hk) in Hin; discriminate Hin. }
      apply in_app_or in Hin. destruct Hin as [Hin|[Hin|Hin]].
      { apply (now_In _ _ Hv) in Hin; discriminate Hin. }
      { discriminate Hin. }
      apply in_app_or in Hin. destruct Hin as [Hin|[Hin|[]]].
      { apply (class_In _ _ _ Hl) in Hin; discriminate Hin. }
      now symmetry. }
  inversion Hsign; subst.
  exists priv, w1, t1, nb, w2, t2, sn, w3, w4, t4. repeat split; auto.
Qed.

(** *** The errors [Generate] can return *)

Lemma catalogued_wrap p e' : In p wrapPrefixes -> catalogued (p ++ e').
Proof. intros H. right. now exists p, e'. Qed.

Lemma catalogued_fixed e : In e fixedErrors -> catalogued e.
Proof. intros H. now left. Qed.

Ltac out H := unfold outcome in H; cbv beta iota delta [fst] in H.
Ltac try_prefixes l :=
  match l with
  | ?p :: ?rest =>
      first [ exists p; eexists; split; [simpl; tauto | reflexivity]
            | try_prefixes rest ]
  end.
Ltac wrapped_error H :=
  injection H as <-; right;
  let l := eval unfold wrapPrefixes in wrapPrefixes in try_prefixes l.
Ltac fixed_error H :=
  injection H as <-; apply catalogued_fixed; simpl; tauto.

Lemma decodeCert_error r e : decodeCert L r = Err e -> catalogued e.
Proof.
  unfold decodeCert. intros H.
  destruct r as [der|e0]; [ | wrapped_error H].
  destruct (fst (pem_Decode L der)) as [b|]; [ | fixed_error H].
  destruct (negb _); [fixed_error H | ].
  destruct (x509_ParseCertificate L _); [discriminate H | wrapped_error H].
Qed.

Lemma decodeKey_error r e : decodeKey L r = Err e -> catalogued e.
Proof.
  unfold decodeKey. intros H.
  destruct r as [der|e0]; [ | wrapped_error H].
  destruct (fst (pem_Decode L der)) as [b|]; [ | fixed_error H].
  destruct (negb _); [fixed_error H | ].
  destruct (x509_ParsePKCS8PrivateKey L _); [discriminate H | wrapped_error H].
Qed.

Lemma loadSigner_error o template priv w e :
  outcome (loadSigner L o template priv w) = Err e -> catalogued e.
Proof.
  destruct (len0 (parentCert o)) eqn:H.
  - apply len0_true in H. rewrite loadSigner_self by assumption.
    discriminate.
  - apply len0_false in H. rewrite loadSigner_parent by assumption.
    cbv zeta.
    destruct (decodeCert L _) as [pc|e1] eqn:Hc.
    + destruct (decodeKey L _) as [pk|e2] eqn:Hk; intros He; out He;
        [discriminate He | injection He as <-].
      eapply decodeKey_error; eassumption.
    + intros He; out He. injection He as <-.
      eapply decodeCert_error; eassumption.
Qed.

Lemma validityStart_error o w e :
  outcome (validityStart L o w) = Err e -> catalogued e.
Proof.
  destruct (len0 (validFrom o)) eqn:H.
  - apply len0_true in H. rewrite validityStart_now by assumption.
    discriminate.
  - apply len0_false in H. rewrite validityStart_parse by assumption.
    destruct (time_Parse L _ _); intros He; out He;
      [discriminate He | wrapped_error He].
Qed.

Lemma persist_error dest o priv derBytes w e :
  outcome (persist L dest o priv derBytes w) = Err e -> catalogued e.
Proof.
  rewrite persist_unfold. cbv zeta.
  destruct (os_Create L _ w) as [[certOut|e0] w1];
    [ | intros He; out He; wrapped_error He].
  destruct (pem_Encode L certOut _ w1) as [[[]|e0] w2];
    [ | intros He; out He; wrapped_error He].
  destruct (File_Close L certOut w2) as [[[]|e0] w3];
    [ | intros He; out He; wrapped_error He].
  destruct (os_OpenFile L _ _ _ w3) as [[keyOut|e0] w4];
    [ | intros He; out He; wrapped_error He].
  destruct (x509_MarshalPKCS8PrivateKey L priv) as [privBytes|e0];
    [ | intros He; out He; wrapped_error He].
  destruct (pem_Encode L keyOut _ w4) as [[[]|e0] w5];
    [ | intros He; out He; wrapped_error He].
  destruct (File_Close L keyOut w5) as [[[]|e0] w6];
    intros He; out He; [discriminate He | wrapped_error He].
Qed.

(** Every error of [Generate] is the unrecognized-curve error, returned
    for a selector that is neither empty nor one of the four constants, or
    is in the catalogue. *)
Lemma Generate_error_forms host dest opts w e :
  outcome (Generate L host dest opts w) = Err e ->
  let o := resolve opts in
  (e = "unrecognized elliptic curve: " ++ fmt_q L (ecdsaCurve o) /\
   ecdsaCurve o <> "" /\ ~ In (ecdsaCurve o) recognizedCurves) \/
  catalogued e.
Proof.
  intros He o.
  destruct (len0 host) eqn:Hh.
  { rewrite Generate_staged, Hh in He. out He. right. fixed_error He. }
  apply len0_false in Hh.
  rewrite Generate_unfold in He by assumption. cbv zeta in He. fold o in He.
  destruct (generateKey L o w) as [[[[priv|e0]|e0] w1] t1] eqn:Hk.
  3:{ out He. injection He as <-.
      destruct (generateKey_cases o) as [[Hc Hf]|[[Hc Hf]|[[c Hin]|[H0 Hn]]]].
      - rewrite generateKey_ed25519 in Hk by assumption. discriminate Hk.
      - rewrite generateKey_rsa in Hk by assumption. discriminate Hk.
      - rewrite (generateKey_ecdsa o w _ c Hin eq_refl) in Hk. discriminate Hk.
      - rewrite generateKey_unrecognized in Hk by assumption.
        injection Hk as <- _ _. left. auto. }
  2:{ right. out He. wrapped_error He. }
  right.
  pose proof (validityStart_error o w1) as Hv.
  destruct (validityStart L o w1) as [[[nb|e1] w2] t2];
    [ | out He; injection He as <-; now apply Hv].
  destruct (rand_Int L serialNumberLimit w2) as [[sn|e2] w3];
    [ | out He; wrapped_error He].
  pose proof (loadSigner_error o (buildTemplate L o host priv nb sn) priv w3)
    as Hl.
  destruct (loadSigner L o _ priv w3) as [[[[pc pk]|e3] w4] t4];
    [ | out He; injection He as <-; now apply Hl].
  destruct (x509_CreateCertificate L _ pc _ pk w4) as [[der|e4] w5];
    [ | out He; wrapped_error He].
  pose proof (persist_error dest o priv der w5) as Hp.
  destruct (persist L dest o priv der w5) as [[r w6] t6].
  out He. subst r. now apply Hp.
Qed.

(** No catalogued error is an unrecognized-curve error. *)
Lemma catalogued_not_unrecognized e s :
  catalogued e -> e <> "unrecognized elliptic curve: " ++ s.
Proof.
  intros [Hf|(p & e' & Hp & ->)].
  - simpl in Hf. intuition (subst; discriminate).
  - simpl in Hp. intuition (subst; discriminate).
Qed.

End Facts.

(* ===================================================================== *)
(** ** Splitting the host list *)
(* ===================================================================== *)

Lemma strings_Split_nonempty s sep : strings_Split s sep <> [].
Proof.
  destruct s as [|c s]; simpl; [discriminate | ].
  destruct (Ascii.eqb c sep); [discriminate | ].
  destruct (strings_Split s sep); discriminate.
Qed.

(** Joining the pieces with the separator gives the string back: nothing
    is trimmed or dropped. *)
Lemma strings_Split_concat s sep :
  String.concat (String sep EmptyString) (strings_Split s sep) = s.
Proof.
  induction s as [|c s IH]; simpl; [reflexivity | ].
  pose proof (strings_Split_nonempty s sep) as Hne.
  destruct (Ascii.eqb_spec c sep) as [->|Hc].
  - destruct (strings_Split s sep) as [|p ps]; [contradiction | ].
    simpl in *. now rewrite IH.
  - destruct (strings_Split s sep) as [|p ps]; [contradiction | ].
    simpl in *. destruct ps; simpl in *; now rewrite <- IH.
Qed.

(** No piece contains the separator. *)
Lemma strings_Split_no_sep s sep :
  Forall (fun piece => ~ In sep (list_ascii_of_string piece))
         (strings_Split s sep).
Proof.
  induction s as [|c s IH]; simpl.
  - constructor; [simpl; tauto | constructor].
  - destruct (Ascii.eqb_spec c sep) as [->|Hc].
    + constructor; [simpl; tauto | assumption].
    + destruct (strings_Split s sep) as [|p ps]; simpl.
      * constructor; [simpl; intuition | constructor].
      * inversion IH; subst. constructor; [ | assumption].
        simpl. intuition.
Qed.

(* ===================================================================== *)
(** ** The claims about [Generate] and [Verify] *)
(* ===================================================================== *)

Section Claims.

Context {W : Type} (L : Lib W).

Lemma Forall_class_impl (P Q : Event -> bool) t :
  (forall ev, P ev = true -> Q ev = false) ->
  Forall (fun ev => P ev = true) t -> Forall (fun ev => Q ev = false) t.
Proof. intros HPQ. apply Forall_impl. exact HPQ. Qed.

(** After the key-generation switch [Generate] generates no further key. *)
Lemma Generate_trace_keygen host dest opts w :
  host <> "" ->
  exists rest,
    trace (Generate L host dest opts w) =
      (trace (generateKey L (resolve opts) w) ++ rest)%list /\
    Forall (fun ev => isKeyGen ev = false) rest.
Proof.
  intros Hh. rewrite Generate_unfold by assumption. cbv zeta.
  set (o := resolve opts).
  destruct (generateKey L o w) as [[[[priv|e]|e] w1] t1];
    try (exists []; simpl; rewrite app_nil_r; split; [reflexivity|constructor]).
  pose proof (validityStart_trace L o w1) as Hv.
  destruct (validityStart L o w1) as [[[nb|e] w2] t2];
    unfold trace in Hv; simpl in Hv.
  2:{ exists t2. split; [reflexivity | ].
      revert Hv. apply Forall_impl. now intros ev ->. }
  assert (Hv' : Forall (fun ev => isKeyGen ev = false) t2).
  { revert Hv. apply Forall_impl. now intros ev ->. }
  destruct (rand_Int L serialNumberLimit w2) as [[sn|e] w3].
  2:{ eexists. split; [reflexivity | ].
      apply Forall_app. split; [assumption | repeat constructor]. }
  pose proof (loadSigner_trace L o (buildTemplate L o host priv nb sn) priv w3)
    as Hl.
  apply (Forall_class_impl isRead isKeyGen) in Hl;
    [ | now intros []].
  destruct (loadSigner L o _ priv w3) as [[[[pc pk]|e] w4] t4];
    unfold trace in Hl; simpl in Hl.
  2:{ eexists. split; [reflexivity | ].
      apply Forall_app. split; [assumption | now constructor]. }
  destruct (x509_CreateCertificate L _ pc _ pk w4) as [[der|e] w5].
  - pose proof (persist_trace L dest o priv der w5) as Hp.
    apply (Forall_class_impl isWrite isKeyGen) in Hp; [ | now intros []].
    destruct (persist L dest o priv der w5) as [[r w6] t6];
      unfold trace in Hp; simpl in Hp.
    eexists. split; [reflexivity | ].
    apply Forall_app. split; [assumption | constructor; [reflexivity | ]].
    apply Forall_app. split; [assumption | now constructor].
  - eexists. split; [reflexivity | ].
    apply Forall_app. split; [assumption | constructor; [reflexivity | ]].
    apply Forall_app. split; [assumption | repeat constructor].
Qed.

(** C6.  With the empty host string [Generate] returns the missing-host
    error at once: whatever the options and the state of the world, the
    world is left as it was and no call at all has been made, so no key
    was generated and no other cryptographic work was done. *)
Theorem Generate_missing_host dest opts (w : W) :
  Generate L "" dest opts w =
  (Err "missing required host parameter", w, []).
Proof. reflexivity. Qed.

(** C1.  For a non-empty host, the first call [Generate] makes is the key
    generation chosen by the curve selector, first match first, and it
    generates no other key: Ed25519 when the selector is unset and the
    Ed25519 flag is set; RSA of the configured size when the selector is
    unset and the flag is not set; ECDSA on the named curve for each of
    the four constants, whatever the flag; and for any other selector
    the unrecognized-curve error, with no call made. *)
Theorem Generate_key_selection host dest opts (w : W) :
  host <> "" ->
  let o := resolve opts in
  let run := Generate L host dest opts w in
  (ecdsaCurve o = "" -> ed25519Key o = true ->
     exists rest, trace run = ed25519_GenerateKey_call :: rest /\
                  Forall (fun ev => isKeyGen ev = false) rest) /\
  (ecdsaCurve o = "" -> ed25519Key o = false ->
     exists rest, trace run = rsa_GenerateKey_call (rsaBits o) :: rest /\
                  Forall (fun ev => isKeyGen ev = false) rest) /\
  (forall c, In (ecdsaCurve o, c) curveTable ->
     exists rest, trace run = ecdsa_GenerateKey_call c :: rest /\
                  Forall (fun ev => isKeyGen ev = false) rest) /\
  (ecdsaCurve o <> "" -> ~ In (ecdsaCurve o) recognizedCurves ->
     run = (Err ("unrecognized elliptic curve: " ++ fmt_q L (ecdsaCurve o)),
            w, [])).
Proof.
  intros Hh o run.
  destruct (Generate_trace_keygen host dest opts w Hh) as (rest & Ht & Hrest).
  fold o in Ht. fold run in Ht.
  repeat split.
  - intros Hc He. exists rest. split; [ | assumption].
    rewrite Ht, generateKey_ed25519 by assumption. reflexivity.
  - intros Hc He. exists rest. split; [ | assumption].
    rewrite Ht, generateKey_rsa by assumption. reflexivity.
  - intros c Hin. exists rest. split; [ | assumption].
    rewrite Ht, (generateKey_ecdsa L o w _ c Hin eq_refl). reflexivity.
  - intros H0 Hn. unfold run. rewrite Generate_unfold by assumption.
    cbv zeta. fold o. now rewrite generateKey_unrecognized.
Qed.

(** C3.  Every template [Generate] hands to [x509.CreateCertificate] has
    the DigitalSignature bit set; has the KeyEncipherment bit set exactly
    when the subject key is an RSA key; has the CertSign bit and the IsCA
    field set exactly when the CA flag of the configuration is set; has
    server authentication as its only extended key usage; and has
    BasicConstraintsValid set. *)
Theorem Generate_template_usage host dest opts (w : W) t issuer pub signer :
  In (x509_CreateCertificate_call t issuer pub signer)
     (trace (Generate L host dest opts w)) ->
  hasKeyUsage (KeyUsage t) x509_KeyUsageDigitalSignature = true /\
  hasKeyUsage (KeyUsage t) x509_KeyUsageKeyEncipherment = isRSAPublic pub /\
  hasKeyUsage (KeyUsage t) x509_KeyUsageCertSign = isCA (resolve opts) /\
  IsCA t = isCA (resolve opts) /\
  ExtKeyUsage t = [x509_ExtKeyUsageServerAuth] /\
  BasicConstraintsValid t = true.
Proof.
  intros Hin. apply Generate_sign_inv in Hin. cbv zeta in Hin.
  destruct Hin as (priv & w1 & t1 & nb & w2 & t2 & sn & w3 & w4 & t4 &
                   _ & _ & _ & _ & -> & -> & _).
  pose proof (buildTemplate_fields L (resolve opts) host priv nb sn) as H.
  cbv zeta in H.
  destruct H as (_ & _ & _ & _ & Hku & Hext & Hbc & Hca & _).
  rewrite Hku, Hext, Hbc, Hca, isRSAPublic_publicKey.
  destruct (isRSA priv), (isCA (resolve opts)); repeat split.
Qed.

(** C4.  In every template [Generate] hands to [x509.CreateCertificate],
    NotAfter is NotBefore plus the configured duration; NotBefore is the
    clock reading taken after key generation when the start-date string
    is empty, and otherwise the time [time.Parse] returns for that string
    under the layout "Jan 2 15:04:05 2006".  When [time.Parse] rejects a
    non-empty start date, [Generate] returns the parse error and makes no
    call after key generation.  The duration is never tested: also with a
    zero or negative duration the signing call is made, once the key, the
    start date, the serial number and the signer have been obtained. *)
Theorem Generate_validity host dest opts (w : W) :
  let o := resolve opts in
  let run := Generate L host dest opts w in
  let keygen := generateKey L o w in
  (forall t issuer pub signer,
     In (x509_CreateCertificate_call t issuer pub signer) (trace run) ->
     NotAfter t = NotBefore t + validFor o /\
     (validFrom o = "" -> NotBefore t = fst (time_Now L (world keygen))) /\
     (validFrom o <> "" ->
      time_Parse L "Jan 2 15:04:05 2006" (validFrom o) = Ok (NotBefore t))) /\
  (forall priv e,
     host <> "" -> outcome keygen = Ok (Ok priv) ->
     validFrom o <> "" ->
     time_Parse L "Jan 2 15:04:05 2006" (validFrom o) = Err e ->
     run = (Err ("failed to parse creation date: " ++ e),
            world keygen, trace keygen)) /\
  (forall priv w1 t1 nb w2 t2 sn w3 pc pk w4 t4,
     host <> "" -> validFor o <= 0 ->
     keygen = (Ok (Ok priv), w1, t1) ->
     validityStart L o w1 = (Ok nb, w2, t2) ->
     rand_Int L serialNumberLimit w2 = (Ok sn, w3) ->
     let template := buildTemplate L o host priv nb sn in
     loadSigner L o template priv w3 = (Ok (pc, pk), w4, t4) ->
     In (x509_CreateCertificate_call template pc (publicKey priv) pk)
        (trace run) /\
     NotAfter template <= NotBefore template).
Proof.
  intros o run keygen. split; [ | split].
  - intros t issuer pub signer H.
    apply Generate_sign_inv in H. cbv zeta in H.
    destruct H as (priv & w1 & t1 & nb & w2 & t2 & sn & w3 & w4 & t4 &
                   _ & Hk & Hv & _ & -> & _).
    pose proof (buildTemplate_fields L (resolve opts) host priv nb sn) as H.
    cbv zeta in H. destruct H as (_ & _ & Hnb & Hna & _).
    rewrite Hnb, Hna. split; [reflexivity | split]; intros Hvf.
    + unfold keygen, o. rewrite Hk. unfold world; simpl.
      rewrite validityStart_now in Hv by assumption. now inversion Hv.
    + rewrite validityStart_parse in Hv by assumption.
      destruct (time_Parse L _ _); inversion Hv; reflexivity.
  - intros priv e Hh Hk Hvf Hp. unfold run.
    rewrite Generate_unfold by assumption. cbv zeta. fold o. fold keygen.
    destruct keygen as [[rk w1] t1]. unfold outcome in Hk; simpl in Hk.
    subst rk. rewrite validityStart_parse by assumption. rewrite Hp.
    unfold world, trace; simpl. now rewrite app_nil_r.
  - intros priv w1 t1 nb w2 t2 sn w3 pc pk w4 t4 Hh Hd Hk Hv Hr template Hl.
    split.
    + unfold run. rewrite Generate_unfold by assumption. cbv zeta.
      fold o. fold keygen. rewrite Hk, Hv, Hr. fold template. rewrite Hl.
      destruct (x509_CreateCertificate L template pc _ pk w4) as [[der|e] w5].
      * destruct (persist L dest o priv der w5) as [[r w6] t6].
        unfold trace; simpl.
        apply in_or_app; right. apply in_or_app; right. right.
        apply in_or_app; right. now left.
      * unfold trace; simpl.
        apply in_or_app; right. apply in_or_app; right. right.
        apply in_or_app; right. now left.
    + pose proof (buildTemplate_fields L o host priv nb sn) as H.
      cbv zeta in H. destruct H as (_ & _ & Hnb & Hna & _).
      fold template in Hnb, Hna. rewrite Hnb, Hna. unfold Time_Add. lia.
Qed.

(** C5.  [Generate] splits the host string at every comma and nowhere
    else, trimming nothing (joining the tokens with commas gives the host
    string back, and no token contains a comma); in every template it
    hands to [x509.CreateCertificate], the IP addresses are the tokens
    that [net.ParseIP] accepts, parsed, in token order, and the DNS names
    are all the other tokens, unchanged and in token order. *)
Theorem Generate_hosts host dest opts (w : W) t issuer pub signer :
  In (x509_CreateCertificate_call t issuer pub signer)
     (trace (Generate L host dest opts w)) ->
  let tokens := strings_Split host "," in
  String.concat "," tokens = host /\
  Forall (fun token => ~ In ","%char (list_ascii_of_string token)) tokens /\
  IPAddresses t =
    flat_map (fun h => match net_ParseIP L h with
                       | Some ip => [ip]
                       | None => []
                       end) tokens /\
  DNSNames t =
    filter (fun h => match net_ParseIP L h with
                     | Some _ => false
                     | None => true
                     end) tokens.
Proof.
  intros Hin tokens. apply Generate_sign_inv in Hin. cbv zeta in Hin.
  destruct Hin as (priv & w1 & t1 & nb & w2 & t2 & sn & w3 & w4 & t4 &
                   _ & _ & _ & _ & -> & _).
  pose proof (buildTemplate_fields L (resolve opts) host priv nb sn) as H.
  cbv zeta in H.
  destruct H as (_ & _ & _ & _ & _ & _ & _ & _ & Hdns & Hip).
  split; [apply strings_Split_concat | ].
  split; [apply strings_Split_no_sep | ].
  split; assumption.
Qed.

(** What the two loaders return, condition by condition. *)
Lemma decodeCert_table :
  (forall e, decodeCert L (Err e) = Err ("failed to read file: " ++ e)) /\
  (forall der, fst (pem_Decode L der) = None ->
     decodeCert L (Ok der) = Err "failed to parse certificate PEM") /\
  (forall der b, fst (pem_Decode L der) = Some b ->
     Block_Type b <> "CERTIFICATE" ->
     decodeCert L (Ok der) = Err "failed to parse certificate PEM") /\
  (forall der b, fst (pem_Decode L der) = Some b ->
     Block_Type b = "CERTIFICATE" ->
     decodeCert L (Ok der) =
     match x509_ParseCertificate L (Block_Bytes b) with
     | Ok c => Ok c
     | Err e => Err ("failed to parse DER data: " ++ e)
     end).
Proof.
  repeat split; intros; simpl.
  - now rewrite H.
  - rewrite H. apply String.eqb_neq in H0. now rewrite H0.
  - rewrite H, H0. reflexivity.
Qed.

Lemma decodeKey_table :
  (forall e, decodeKey L (Err e) = Err ("failed to read file: " ++ e)) /\
  (forall der, fst (pem_Decode L der) = None ->
     decodeKey L (Ok der) = Err "failed to parse key PEM") /\
  (forall der b, fst (pem_Decode L der) = Some b ->
     Block_Type b <> "PRIVATE KEY" ->
     decodeKey L (Ok der) = Err "failed to parse key PEM") /\
  (forall der b, fst (pem_Decode L der) = Some b ->
     Block_Type b = "PRIVATE KEY" ->
     decodeKey L (Ok der) =
     match x509_ParsePKCS8PrivateKey L (Block_Bytes b) with
     | Ok k => Ok k
     | Err e => Err ("failed to parse DER data: " ++ e)
     end).
Proof.
  repeat split; intros; simpl.
  - now rewrite H.
  - rewrite H. apply String.eqb_neq in H0. now rewrite H0.
  - rewrite H, H0. reflexivity.
Qed.

(** No error of a loader is the error of a failed signing. *)
Lemma decodeCert_not_signing r e s :
  decodeCert L r = Err e -> e <> "failed to create certificate: " ++ s.
Proof.
  unfold decodeCert. intros H.
  destruct r as [der|e0]; [ | inversion H; discriminate].
  destruct (fst (pem_Decode L der)) as [b|]; [ | inversion H; discriminate].
  destruct (negb _); [inversion H; discriminate | ].
  destruct (x509_ParseCertificate L _); inversion H; discriminate.
Qed.

Lemma decodeKey_not_signing r e s :
  decodeKey L r = Err e -> e <> "failed to create certificate: " ++ s.
Proof.
  unfold decodeKey. intros H.
  destruct r as [der|e0]; [ | inversion H; discriminate].
  destruct (fst (pem_Decode L der)) as [b|]; [ | inversion H; discriminate].
  destruct (negb _); [inversion H; discriminate | ].
  destruct (x509_ParsePKCS8PrivateKey L _); inversion H; discriminate.
Qed.

(** The calls [Generate] makes before it turns to the signer are no
    signing calls and write no file. *)
Lemma prelude_trace o w priv w1 t1 nb w2 t2 :
  generateKey L o w = (Ok (Ok priv), w1, t1) ->
  validityStart L o w1 = (Ok nb, w2, t2) ->
  Forall (fun ev => isSign ev = false /\ isWrite ev = false)
         (t1 ++ t2 ++ [rand_Int_call serialNumberLimit])%list.
Proof.
  intros Hk Hv.
  pose proof (generateKey_trace L o w) as H1. rewrite Hk in H1.
  pose proof (validityStart_trace L o w1) as H2. rewrite Hv in H2.
  unfold trace in H1, H2; simpl in H1, H2.
  apply Forall_app; split; [ | apply Forall_app; split].
  - revert H1. apply Forall_impl. now intros [].
  - revert H2. apply Forall_impl. now intros ev ->.
  - repeat constructor.
Qed.

(** After the signing call [Generate] signs nothing and reads nothing. *)
Lemma Generate_after_sign host dest opts w priv w1 t1 nb w2 t2 sn w3 pc pk w4 t4 :
  host <> "" ->
  let o := resolve opts in
  generateKey L o w = (Ok (Ok priv), w1, t1) ->
  validityStart L o w1 = (Ok nb, w2, t2) ->
  rand_Int L serialNumberLimit w2 = (Ok sn, w3) ->
  let template := buildTemplate L o host priv nb sn in
  loadSigner L o template priv w3 = (Ok (pc, pk), w4, t4) ->
  exists rest,
    trace (Generate L host dest opts w) =
      ((t1 ++ t2 ++ [rand_Int_call serialNumberLimit]) ++ t4 ++
       x509_CreateCertificate_call template pc (publicKey priv) pk :: rest)%list /\
    Forall (fun ev => isWrite ev = true) rest.
Proof.
  intros Hh o Hk Hv Hr template Hl.
  rewrite Generate_unfold by assumption. cbv zeta. fold o.
  rewrite Hk, Hv, Hr. fold template. rewrite Hl.
  destruct (x509_CreateCertificate L template pc _ pk w4) as [[der|e] w5].
  - pose proof (persist_trace L dest o priv der w5) as Hp.
    destruct (persist L dest o priv der w5) as [[r w6] t6].
    unfold trace in *; simpl in *. exists t6. split; [ | assumption].
    rewrite <- !app_assoc. reflexivity.
  - exists []. split; [ | constructor]. unfold trace; simpl.
    rewrite <- !app_assoc. reflexivity.
Qed.

(** The error of a loader tells the statement that failed. *)
Lemma decodeCert_step r e :
  decodeCert L r = Err e ->
  (certStep L r = Some ReadStep /\ exists x, e = "failed to read file: " ++ x) \/
  (certStep L r = Some PemStep /\ e = "failed to parse certificate PEM") \/
  (certStep L r = Some DerStep /\
   exists x, e = "failed to parse DER data: " ++ x).
Proof.
  unfold decodeCert, certStep. intros H.
  destruct r as [der|e0].
  2:{ injection H as <-. left. split; [reflexivity | now exists e0]. }
  destruct (fst (pem_Decode L der)) as [b|].
  2:{ injection H as <-. right; left. now split. }
  destruct (negb _).
  { injection H as <-. right; left. now split. }
  destruct (x509_ParseCertificate L _) as [c|e1]; [discriminate H | ].
  injection H as <-. right; right. split; [reflexivity | now exists e1].
Qed.

Lemma decodeKey_step r e :
  decodeKey L r = Err e ->
  (keyStep L r = Some ReadStep /\ exists x, e = "failed to read file: " ++ x) \/
  (keyStep L r = Some PemStep /\ e = "failed to parse key PEM") \/
  (keyStep L r = Some DerStep /\
   exists x, e = "failed to parse DER data: " ++ x).
Proof.
  unfold decodeKey, keyStep. intros H.
  destruct r as [der|e0].
  2:{ injection H as <-. left. split; [reflexivity | now exists e0]. }
  destruct (fst (pem_Decode L der)) as [b|].
  2:{ injection H as <-. right; left. now split. }
  destruct (negb _).
  { injection H as <-. right; left. now split. }
  destruct (x509_ParsePKCS8PrivateKey L _) as [c|e1]; [discriminate H | ].
  injection H as <-. right; right. split; [reflexivity | now exists e1].
Qed.

Ltac same_step H1 H2 :=
  destruct H1 as [(S1 & x1 & E1)|[(S1 & E1)|(S1 & x1 & E1)]];
  destruct H2 as [(S2 & x2 & E2)|[(S2 & E2)|(S2 & x2 & E2)]];
  rewrite ?S1, ?S2; try reflexivity;
  exfalso; rewrite E1 in E2; discriminate E2.

Lemma decodeCert_same_step r r' e :
  decodeCert L r = Err e -> decodeCert L r' = Err e ->
  certStep L r = certStep L r'.
Proof.
  intros H1 H2. apply decodeCert_step in H1. apply decodeCert_step in H2.
  same_step H1 H2.
Qed.

Lemma decodeKey_same_step r r' e :
  decodeKey L r = Err e -> decodeKey L r' = Err e ->
  keyStep L r = keyStep L r'.
Proof.
  intros H1 H2. apply decodeKey_step in H1. apply decodeKey_step in H2.
  same_step H1 H2.
Qed.

Lemma decode_shared_error r r' e :
  decodeCert L r = Err e -> decodeKey L r' = Err e ->
  certStep L r = keyStep L r' /\ certStep L r <> Some PemStep.
Proof.
  intros H1 H2. apply decodeCert_step in H1. apply decodeKey_step in H2.
  destruct H1 as [(S1 & x1 & E1)|[(S1 & E1)|(S1 & x1 & E1)]];
  destruct H2 as [(S2 & x2 & E2)|[(S2 & E2)|(S2 & x2 & E2)]];
  rewrite ?S1, ?S2;
  try (split; [reflexivity | discriminate]);
  exfalso; rewrite E1 in E2; discriminate E2.
Qed.

(** No error of a loader is an error of another statement of
    [Generate]. *)
Lemma decode_error_own r e :
  decodeCert L r = Err e \/ decodeKey L r = Err e ->
  e <> "missing required host parameter" /\
  forall s, e <> "unrecognized elliptic curve: " ++ s /\
            forall p, In p ownPrefixes -> e <> p ++ s.
Proof.
  intros H.
  assert (Hform : (exists x, e = "failed to read file: " ++ x) \/
                  e = "failed to parse certificate PEM" \/
                  e = "failed to parse key PEM" \/
                  (exists x, e = "failed to parse DER data: " ++ x)).
  { destruct H as [H|H].
    - apply decodeCert_step in H.
      destruct H as [(_ & x & E)|[(_ & E)|(_ & x & E)]]; eauto 6.
    - apply decodeKey_step in H.
      destruct H as [(_ & x & E)|[(_ & E)|(_ & x & E)]]; eauto 6. }
  destruct Hform as [(x & ->)|[->|[->|(x & ->)]]];
    (split; [discriminate | ]; intros s; split; [discriminate | ];
     intros p Hp; simpl in Hp; intuition (subst; discriminate)).
Qed.

(** C2, as the code has it.  Once the key, the start date and the
    serial number have been obtained, [Generate] chooses the signer.  With
    no parent certificate path it reads no file and makes the signing call
    with the template as its own issuer and the freshly generated key as
    both subject key and signing key.  With a parent certificate path it
    reads the parent certificate file and then the parent key file; if
    either load fails it returns the loader's error, having made no
    signing call; and if both succeed it makes the signing call with the
    parent certificate as issuer, the parent key as signing key and the
    freshly generated key as subject key.  A load fails when the file
    cannot be read, when no PEM block is found in it, when the block is
    not of type CERTIFICATE (respectively PRIVATE KEY), or when its bytes
    do not parse.  The loader's error is never an error of another
    statement of [Generate], and it tells which of the three statements
    of the loader failed (read, PEM, DER); it does not tell a file
    without a PEM block from one with a block of the wrong type, and it
    tells the certificate file from the key file only at the PEM
    statement, the read and DER prefixes being the same for both. *)
Theorem Generate_signing_paths host dest opts (w : W)
    priv w1 t1 nb w2 t2 sn w3 :
  host <> "" ->
  let o := resolve opts in
  generateKey L o w = (Ok (Ok priv), w1, t1) ->
  validityStart L o w1 = (Ok nb, w2, t2) ->
  rand_Int L serialNumberLimit w2 = (Ok sn, w3) ->
  let template := buildTemplate L o host priv nb sn in
  let run := Generate L host dest opts w in
  let before := (t1 ++ t2 ++ [rand_Int_call serialNumberLimit])%list in
  let readCert := os_ReadFile L (parentCert o) w3 in
  let readKey := os_ReadFile L (parentKey o) (snd readCert) in
  let reads := [os_ReadFile_call (parentCert o);
                os_ReadFile_call (parentKey o)] in
  Forall (fun ev => isSign ev = false /\ isWrite ev = false) before /\
  (parentCert o = "" ->
     exists rest,
       trace run =
         (before ++ x509_CreateCertificate_call template template
                      (publicKey priv) priv :: rest)%list /\
       Forall (fun ev => isWrite ev = true) rest) /\
  (parentCert o <> "" ->
     (forall e, decodeCert L (fst readCert) = Err e ->
        run = (Err e, snd readCert,
               (before ++ [os_ReadFile_call (parentCert o)])%list)) /\
     (forall pc e, decodeCert L (fst readCert) = Ok pc ->
        decodeKey L (fst readKey) = Err e ->
        run = (Err e, snd readKey, (before ++ reads)%list)) /\
     (forall pc pk, decodeCert L (fst readCert) = Ok pc ->
        decodeKey L (fst readKey) = Ok pk ->
        exists rest,
          trace run =
            (before ++ reads ++
             x509_CreateCertificate_call template pc (publicKey priv) pk
             :: rest)%list /\
          Forall (fun ev => isWrite ev = true) rest)) /\
  (forall r e s, decodeCert L r = Err e ->
     e <> "failed to create certificate: " ++ s) /\
  (forall r e s, decodeKey L r = Err e ->
     e <> "failed to create certificate: " ++ s) /\
  ((forall e, decodeCert L (Err e) = Err ("failed to read file: " ++ e)) /\
   (forall der, fst (pem_Decode L der) = None ->
      decodeCert L (Ok der) = Err "failed to parse certificate PEM") /\
   (forall der b, fst (pem_Decode L der) = Some b ->
      Block_Type b <> "CERTIFICATE" ->
      decodeCert L (Ok der) = Err "failed to parse certificate PEM") /\
   (forall der b, fst (pem_Decode L der) = Some b ->
      Block_Type b = "CERTIFICATE" ->
      decodeCert L (Ok der) =
      match x509_ParseCertificate L (Block_Bytes b) with
      | Ok c => Ok c
      | Err e => Err ("failed to parse DER data: " ++ e)
      end)) /\
  ((forall e, decodeKey L (Err e) = Err ("failed to read file: " ++ e)) /\
   (forall der, fst (pem_Decode L der) = None ->
      decodeKey L (Ok der) = Err "failed to parse key PEM") /\
   (forall der b, fst (pem_Decode L der) = Some b ->
      Block_Type b <> "PRIVATE KEY" ->
      decodeKey L (Ok der) = Err "failed to parse key PEM") /\
   (forall der b, fst (pem_Decode L der) = Some b ->
      Block_Type b = "PRIVATE KEY" ->
      decodeKey L (Ok der) =
      match x509_ParsePKCS8PrivateKey L (Block_Bytes b) with
      | Ok k => Ok k
      | Err e => Err ("failed to parse DER data: " ++ e)
      end)) /\
  (forall r r' e, decodeCert L r = Err e -> decodeCert L r' = Err e ->
     certStep L r = certStep L r') /\
  (forall r r' e, decodeKey L r = Err e -> decodeKey L r' = Err e ->
     keyStep L r = keyStep L r') /\
  (forall r r' e, decodeCert L r = Err e -> decodeKey L r' = Err e ->
     certStep L r = keyStep L r' /\ certStep L r <> Some PemStep) /\
  (forall r e, decodeCert L r = Err e \/ decodeKey L r = Err e ->
     e <> "missing required host parameter" /\
     forall s, e <> "unrecognized elliptic curve: " ++ s /\
               forall p, In p ownPrefixes -> e <> p ++ s).
Proof.
  intros Hh o Hk Hv Hr template run before readCert readKey reads.
  split; [exact (prelude_trace o w priv w1 t1 nb w2 t2 Hk Hv) | ].
  split; [ | split; [ | split; [ | split; [ | split;
    [ | split; [ | split; [ | split; [ | split]]]]]]]].
  - intros Hp.
    destruct (Generate_after_sign host dest opts w priv w1 t1 nb w2 t2 sn w3
                template priv w3 [] Hh Hk Hv Hr) as (rest & Ht & Hrest).
    { fold o. fold template. now apply loadSigner_self. }
    exists rest. split; [exact Ht | exact Hrest].
  - intros Hp.
    pose proof (loadSigner_parent L o template priv w3 Hp) as Hl.
    cbv zeta in Hl. fold readCert in Hl. fold readKey in Hl.
    split; [ | split].
    + intros e He. rewrite He in Hl. unfold run.
      rewrite Generate_unfold by assumption. cbv zeta. fold o.
      rewrite Hk, Hv, Hr. fold template. rewrite Hl.
      unfold before. now rewrite <- !app_assoc.
    + intros pc e Hc He. rewrite Hc, He in Hl. unfold run.
      rewrite Generate_unfold by assumption. cbv zeta. fold o.
      rewrite Hk, Hv, Hr. fold template. rewrite Hl.
      unfold before, reads. now rewrite <- !app_assoc.
    + intros pc pk Hc He. rewrite Hc, He in Hl.
      destruct (Generate_after_sign host dest opts w priv w1 t1 nb w2 t2 sn w3
                  pc pk (snd readKey) reads Hh Hk Hv Hr) as (rest & Ht & Hrest).
      { fold o. fold template. exact Hl. }
      exists rest. split; [ | exact Hrest].
      fold run in Ht. rewrite Ht. unfold before, reads.
      rewrite <- !app_assoc. reflexivity.
  - apply decodeCert_not_signing.
  - apply decodeKey_not_signing.
  - apply decodeCert_table.
  - apply decodeKey_table.
  - apply decodeCert_same_step.
  - apply decodeKey_same_step.
  - apply decode_shared_error.
  - apply decode_error_own.
Qed.

(** C9.  [Verify] reads and decodes the root certificate file and then the
    leaf certificate file, and returns the loader's error if either load
    fails (the file cannot be read, holds no PEM block, holds a block that
    is not of type CERTIFICATE, or the block does not parse), having made
    no verification call.  Otherwise it makes one verification call, on
    the leaf, with the given DNS name, a root pool holding exactly the
    root certificate, and no verification time set (so that the library
    takes the current time); it returns success when that call succeeds,
    and otherwise the library's error behind the prefix
    "failed to verify certificate: ". *)
Theorem Verify_run rootCertPath certPath dnsName (w : W) :
  let run := Verify L rootCertPath certPath dnsName w in
  let readRoot := os_ReadFile L rootCertPath w in
  let readLeaf := os_ReadFile L certPath (snd readRoot) in
  let reads := [os_ReadFile_call rootCertPath; os_ReadFile_call certPath] in
  (forall e, decodeCert L (fst readRoot) = Err e ->
     run = (Err e, snd readRoot, [os_ReadFile_call rootCertPath])) /\
  (forall rootCert e, decodeCert L (fst readRoot) = Ok rootCert ->
     decodeCert L (fst readLeaf) = Err e ->
     run = (Err e, snd readLeaf, reads)) /\
  (forall rootCert cert, decodeCert L (fst readRoot) = Ok rootCert ->
     decodeCert L (fst readLeaf) = Ok cert ->
     let opts := {| DNSName := dnsName;
                    Intermediates := None;
                    Roots := Some [rootCert];
                    CurrentTime := None;
                    KeyUsages := [] |} in
     let verify := Certificate_Verify L cert opts (snd readLeaf) in
     run = (match fst verify with
            | Ok _ => Ok tt
            | Err e => Err ("failed to verify certificate: " ++ e)
            end, snd verify,
            (reads ++ [Certificate_Verify_call cert opts])%list)) /\
  ((forall e, decodeCert L (Err e) = Err ("failed to read file: " ++ e)) /\
   (forall der, fst (pem_Decode L der) = None ->
      decodeCert L (Ok der) = Err "failed to parse certificate PEM") /\
   (forall der b, fst (pem_Decode L der) = Some b ->
      Block_Type b <> "CERTIFICATE" ->
      decodeCert L (Ok der) = Err "failed to parse certificate PEM") /\
   (forall der b, fst (pem_Decode L der) = Some b ->
      Block_Type b = "CERTIFICATE" ->
      decodeCert L (Ok der) =
      match x509_ParseCertificate L (Block_Bytes b) with
      | Ok c => Ok c
      | Err e => Err ("failed to parse DER data: " ++ e)
      end)).
Proof.
  intros run readRoot readLeaf reads.
  assert (Hrun : run =
    match decodeCert L (fst readRoot) with
    | Err e => (Err e, snd readRoot, [os_ReadFile_call rootCertPath])
    | Ok rootCert =>
        match decodeCert L (fst readLeaf) with
        | Err e => (Err e, snd readLeaf, reads)
        | Ok cert =>
            let opts := {| DNSName := dnsName; Intermediates := None;
                           Roots := Some [rootCert]; CurrentTime := None;
                           KeyUsages := [] |} in
            let verify := Certificate_Verify L cert opts (snd readLeaf) in
            (match fst verify with
             | Ok _ => Ok tt
             | Err e => Err ("failed to verify certificate: " ++ e)
             end, snd verify,
             (reads ++ [Certificate_Verify_call cert opts])%list)
        end
    end).
  { unfold run, Verify. cbv zeta.
    rewrite bind_run, ParsePemCertFile_run. fold readRoot.
    destruct (decodeCert L (fst readRoot)) as [rootCert|e]; [ | reflexivity].
    cbv beta iota. rewrite bind_run, ParsePemCertFile_run. fold readLeaf.
    destruct (decodeCert L (fst readLeaf)) as [cert|e]; [ | reflexivity].
    cbv beta iota. rewrite bind_call.
    unfold CertPool_AddCert, x509_NewCertPool. simpl app.
    destruct (Certificate_Verify L cert _ (snd readLeaf)) as [[chains|e] w3];
      reflexivity. }
  split; [ | split; [ | split]].
  - intros e He. now rewrite Hrun, He.
  - intros rootCert e Hc He. now rewrite Hrun, Hc, He.
  - intros rootCert cert Hc He. now rewrite Hrun, Hc, He.
  - apply decodeCert_table.
Qed.

(** C7.  Once the certificate is signed, [Generate] makes exactly these
    calls, in this order, and stops at the first that fails, returning
    its error with the world as that call left it: create
    dest/certFileName; write one PEM block of type CERTIFICATE holding
    the DER bytes to it; close it; open dest/keyFileName write-only,
    creating and truncating it, with mode 0600; (marshal the generated
    private key as PKCS#8;) write one PEM block of type PRIVATE KEY
    holding those bytes to it; close it.  It returns success only when
    all of them succeeded.  It writes no file before, and it never removes
    or reopens the certificate file: after a failure on the key file the
    calls made on the certificate file stand. *)
Theorem Generate_persistence host dest opts (w : W)
    priv w1 t1 nb w2 t2 sn w3 pc pk w4 t4 derBytes w5 :
  host <> "" ->
  let o := resolve opts in
  generateKey L o w = (Ok (Ok priv), w1, t1) ->
  validityStart L o w1 = (Ok nb, w2, t2) ->
  rand_Int L serialNumberLimit w2 = (Ok sn, w3) ->
  let template := buildTemplate L o host priv nb sn in
  loadSigner L o template priv w3 = (Ok (pc, pk), w4, t4) ->
  x509_CreateCertificate L template pc (publicKey priv) pk w4
    = (Ok derBytes, w5) ->
  let before :=
    (t1 ++ t2 ++ rand_Int_call serialNumberLimit :: t4 ++
     [x509_CreateCertificate_call template pc (publicKey priv) pk])%list in
  let create := os_Create_call (dest ++ "/" ++ certFileName o) in
  let open :=
    os_OpenFile_call (dest ++ "/" ++ keyFileName o)
      (Z.lor (Z.lor os_O_WRONLY os_O_CREATE) os_O_TRUNC) mode_0600 in
  Forall (fun ev => isWrite ev = false) before /\
  Generate L host dest opts w =
  match os_Create L (dest ++ "/" ++ certFileName o) w5 with
  | (Err e, w6) =>
      (Err ("failed to open cert.pem for writing: " ++ e), w6,
       (before ++ [create])%list)
  | (Ok certOut, w6) =>
  let encode :=
    pem_Encode_call certOut (mkBlock "CERTIFICATE" [] derBytes) in
  let close := File_Close_call certOut in
  match pem_Encode L certOut (mkBlock "CERTIFICATE" [] derBytes) w6 with
  | (Err e, w7) =>
      (Err ("failed to write data to cert.pem: " ++ e), w7,
       (before ++ [create; encode])%list)
  | (Ok _, w7) =>
  match File_Close L certOut w7 with
  | (Err e, w8) =>
      (Err ("error closing cert.pem: " ++ e), w8,
       (before ++ [create; encode; close])%list)
  | (Ok _, w8) =>
  match os_OpenFile L (dest ++ "/" ++ keyFileName o)
          (Z.lor (Z.lor os_O_WRONLY os_O_CREATE) os_O_TRUNC) mode_0600 w8 with
  | (Err e, w9) =>
      (Err ("failed to open key.pem for writing: " ++ e), w9,
       (before ++ [create; encode; close; open])%list)
  | (Ok keyOut, w9) =>
  match x509_MarshalPKCS8PrivateKey L priv with
  | Err e =>
      (Err ("unable to marshal private key: " ++ e), w9,
       (before ++ [create; encode; close; open])%list)
  | Ok privBytes =>
  let encodeKey :=
    pem_Encode_call keyOut (mkBlock "PRIVATE KEY" [] privBytes) in
  let closeKey := File_Close_call keyOut in
  match pem_Encode L keyOut (mkBlock "PRIVATE KEY" [] privBytes) w9 with
  | (Err e, w10) =>
      (Err ("failed to write data to key.pem: " ++ e), w10,
       (before ++ [create; encode; close; open; encodeKey])%list)
  | (Ok _, w10) =>
  match File_Close L keyOut w10 with
  | (Err e, w11) =>
      (Err ("error closing key.pem: " ++ e), w11,
       (before ++ [create; encode; close; open; encodeKey; closeKey])%list)
  | (Ok _, w11) =>
      (Ok tt, w11,
       (before ++ [create; encode; close; open; encodeKey; closeKey])%list)
  end end end end end end end.
Proof.
  intros Hh o Hk Hv Hr template Hl Hs before create open.
  split.
  { pose proof (prelude_trace o w priv w1 t1 nb w2 t2 Hk Hv) as Hpre.
    pose proof (loadSigner_trace L o template priv w3) as Hld.
    rewrite Hl in Hld. unfold trace in Hld; simpl in Hld.
    unfold before.
    replace (t1 ++ t2 ++ rand_Int_call serialNumberLimit :: t4 ++
             [x509_CreateCertificate_call template pc (publicKey priv) pk])%list
      with ((t1 ++ t2 ++ [rand_Int_call serialNumberLimit]) ++ t4 ++
            [x509_CreateCertificate_call template pc (publicKey priv) pk])%list
      by (rewrite <- !app_assoc; reflexivity).
    apply Forall_app; split; [ | apply Forall_app; split].
    - revert Hpre. apply Forall_impl. now intros ev [_ H].
    - revert Hld. apply Forall_impl. now intros [].
    - repeat constructor. }
  rewrite Generate_unfold by assumption. cbv zeta. fold o.
  rewrite Hk, Hv, Hr. fold template. rewrite Hl, Hs.
  rewrite persist_unfold. cbv zeta.
  unfold certPath, keyPath, keyFlag, certBlock, keyBlock.
  assert (Hb : forall t6, (t1 ++ t2 ++ rand_Int_call serialNumberLimit :: t4 ++
             x509_CreateCertificate_call template pc (publicKey priv) pk
             :: t6)%list = (before ++ t6)%list).
  { intros t6. unfold before. rewrite <- !app_assoc. simpl.
    rewrite <- !app_assoc. reflexivity. }
  destruct (os_Create L _ w5) as [[certOut|e] w6]; [ | now rewrite Hb].
  destruct (pem_Encode L certOut _ w6) as [[[]|e] w7]; [ | now rewrite Hb].
  destruct (File_Close L certOut w7) as [[[]|e] w8]; [ | now rewrite Hb].
  destruct (os_OpenFile L _ _ _ w8) as [[keyOut|e] w9]; [ | now rewrite Hb].
  destruct (x509_MarshalPKCS8PrivateKey L priv) as [privBytes|e];
    [ | now rewrite Hb].
  destruct (pem_Encode L keyOut _ w9) as [[[]|e] w10]; [ | now rewrite Hb].
  destruct (File_Close L keyOut w10) as [[[]|e] w11]; now rewrite Hb.
Qed.

End Claims.

(* ===================================================================== *)
(** ** The claims about the options *)
(* ===================================================================== *)



(** C2 as stated fails: the error of a failed load is not distinct for
    each of the failures listed.  In the sample directory a parent
    certificate file without a PEM block and one holding a PRIVATE KEY
    block make [Generate] return the same error; and a missing parent
    certificate file and a missing parent key file of the same name make
    it return the same error too. *)
Lemma parent_load_error_counterexample :
  let run := fun c k =>
    outcome (Generate Sample.lib "test.example.com" "out"
               [WithSignByParent c k] Sample.withNotes) in
  let blockType := fun name =>
    match Sample.lookup name (Sample.files Sample.withNotes) with
    | Some content =>
        option_map Block_Type (fst (pem_Decode Sample.lib content))
    | None => None
    end in
  blockType "out/notes.txt" = None /\
  blockType "out/ca_key.pem" = Some "PRIVATE KEY" /\
  run "out/notes.txt" "out/ca_key.pem"
    = Err "failed to parse certificate PEM" /\
  run "out/ca_key.pem" "out/ca_key.pem"
    = Err "failed to parse certificate PEM" /\
  run "out/missing.pem" "out/ca_key.pem"
    = Err "failed to read file: open out/missing.pem: no such file or directory" /\
  run "out/ca_cert.pem" "out/missing.pem"
    = Err "failed to read file: open out/missing.pem: no such file or directory".
Proof. vm_compute. repeat split. Qed.

(** C10.  The four curve options set the selector to their constant, and
    every exported option either leaves the selector alone or sets it to
    one of the four constants.  So after any list of exported options the
    selector is empty or one of the four; the switch of [Generate] then
    makes a key-generation call and does not return, and [Generate] never
    returns an unrecognized-curve error. *)
Theorem exported_options_curve opts :
  Forall exported opts ->
  (forall o, ecdsaCurve (WithP224 o) = CurveP224 /\
             ecdsaCurve (WithP256 o) = CurveP256 /\
             ecdsaCurve (WithP384 o) = CurveP384 /\
             ecdsaCurve (WithP521 o) = CurveP521) /\
  Forall (fun opt => forall o,
            ecdsaCurve (opt o) = ecdsaCurve o \/
            In (ecdsaCurve (opt o)) recognizedCurves) opts /\
  (ecdsaCurve (resolve opts) = "" \/
   In (ecdsaCurve (resolve opts)) recognizedCurves) /\
  forall (W : Type) (L : Lib W) host dest (w : W),
    (exists r w1 ev,
       generateKey L (resolve opts) w = (Ok r, w1, [ev]) /\
       isKeyGen ev = true) /\
    (forall s, outcome (Generate L host dest opts w)
               <> Err ("unrecognized elliptic curve: " ++ s)).
Proof.
  intros Hex.
  split; [intros o; repeat split | ].
  split; [revert Hex; apply Forall_impl; intros opt; apply exported_curve | ].
  pose proof (resolve_curve opts Hex) as Hc.
  split; [exact Hc | ].
  intros W L host dest w. split.
  - destruct (generateKey_cases (resolve opts))
      as [[H0 Hf]|[[H0 Hf]|[[c Hin]|[H0 Hn]]]].
    + rewrite generateKey_ed25519 by assumption. eauto 6.
    + rewrite generateKey_rsa by assumption. eauto 6.
    + rewrite (generateKey_ecdsa L _ w _ c Hin eq_refl). eauto 6.
    + destruct Hc; contradiction.
  - intros s He. apply Generate_error_forms in He. cbv zeta in He.
    destruct He as [(_ & H0 & Hn)|Hcat].
    + destruct Hc; contradiction.
    + now apply (catalogued_not_unrecognized _ s) in Hcat.
Qed.

(* ===================================================================== *)
(** ** Runs in the sample world *)
(* ===================================================================== *)

Lemma Generate_key_selection_witness :
  exists rest,
    trace (Generate Sample.lib "test.example.com" "out"
             [WithP256; WithED25519] Sample.empty)
    = ecdsa_GenerateKey_call elliptic_P256 :: rest /\
    Forall (fun ev => isKeyGen ev = false) rest.
Proof.
  assert (Hh : "test.example.com" <> "") by discriminate.
  destruct (Generate_key_selection Sample.lib "test.example.com" "out"
              [WithP256; WithED25519] Sample.empty Hh) as (_ & _ & H & _).
  apply (H elliptic_P256). right; left; reflexivity.
Defined.

Lemma Generate_template_usage_witness :
  let t := buildTemplate Sample.lib (resolve [WithCA]) "test.example.com"
             (RSAPrivateKey Sample.toyRSA) 1700000000000000000 42 in
  hasKeyUsage (KeyUsage t) x509_KeyUsageDigitalSignature = true /\
  hasKeyUsage (KeyUsage t) x509_KeyUsageKeyEncipherment = true /\
  hasKeyUsage (KeyUsage t) x509_KeyUsageCertSign = true /\
  IsCA t = true /\
  ExtKeyUsage t = [x509_ExtKeyUsageServerAuth] /\
  BasicConstraintsValid t = true.
Proof.
  intros t.
  apply (Generate_template_usage Sample.lib "test.example.com" "out" [WithCA]
           Sample.empty t t
           (Some (RSAPublicKey (rsa_Public Sample.toyRSA)))
           (RSAPrivateKey Sample.toyRSA)).
  vm_compute. do 3 right. left. reflexivity.
Defined.

Lemma Generate_hosts_witness :
  let host := "a.example.com, b.example.com,127.0.0.1,*.example.com,::1" in
  let t := buildTemplate Sample.lib (resolve []) host
             (RSAPrivateKey Sample.toyRSA) 1700000000000000000 42 in
  let tokens := strings_Split host "," in
  String.concat "," tokens = host /\
  Forall (fun token => ~ In ","%char (list_ascii_of_string token)) tokens /\
  IPAddresses t =
    flat_map (fun h => match net_ParseIP Sample.lib h with
                       | Some ip => [ip]
                       | None => []
                       end) tokens /\
  DNSNames t =
    filter (fun h => match net_ParseIP Sample.lib h with
                     | Some _ => false
                     | None => true
                     end) tokens.
Proof.
  intros host t.
  apply (Generate_hosts Sample.lib host "out" [] Sample.empty t t
           (Some (RSAPublicKey (rsa_Public Sample.toyRSA)))
           (RSAPrivateKey Sample.toyRSA)).
  vm_compute. do 3 right. left. reflexivity.
Defined.

Lemma Generate_signing_paths_witness :
  let o := resolve Sample.byParent in
  let template := buildTemplate Sample.lib o "test.example.com"
                    (RSAPrivateKey Sample.toyRSA) 1700000000000000000 42 in
  exists pc pk rest,
    trace (Generate Sample.lib "test.example.com" "out" Sample.byParent
             Sample.withCA)
    = ([rsa_GenerateKey_call 2048; time_Now_call;
        rand_Int_call serialNumberLimit;
        os_ReadFile_call "out/ca_cert.pem";
        os_ReadFile_call "out/ca_key.pem";
        x509_CreateCertificate_call template pc
          (Some (RSAPublicKey (rsa_Public Sample.toyRSA))) pk] ++ rest)%list /\
    Raw pc = Sample.toyDER /\
    Forall (fun ev => isWrite ev = true) rest.
Proof.
  intros o template.
  assert (Hh : "test.example.com" <> "") by discriminate.
  destruct (Generate_signing_paths Sample.lib "test.example.com" "out"
              Sample.byParent Sample.withCA
              (RSAPrivateKey Sample.toyRSA) Sample.withCA
              [rsa_GenerateKey_call 2048]
              1700000000000000000 Sample.withCA [time_Now_call]
              42 Sample.withCA Hh eq_refl eq_refl eq_refl)
    as (_ & _ & Hparent & _).
  destruct Hparent as (_ & _ & H); [discriminate | ].
  destruct (H (mkCertificate Sample.toyDER 0 [] 0 0 0 [] false false [] [])
              (RSAPrivateKey Sample.toyRSA) eq_refl eq_refl)
    as (rest & Ht & Hrest).
  exists (mkCertificate Sample.toyDER 0 [] 0 0 0 [] false false [] []),
         (RSAPrivateKey Sample.toyRSA), rest.
  split; [exact Ht | split; [reflexivity | exact Hrest]].
Defined.

Lemma Generate_persistence_witness :
  outcome (Generate Sample.lib "test.example.com" "out" [] Sample.locked)
  = Err "failed to open key.pem for writing: open out/key.pem: permission denied" /\
  Sample.lookup "out/cert.pem"
    (Sample.files
       (world (Generate Sample.lib "test.example.com" "out" [] Sample.locked)))
  = Some (Sample.encodeBlock (mkBlock "CERTIFICATE" [] Sample.toyDER)) /\
  Sample.lookup "out/key.pem"
    (Sample.files
       (world (Generate Sample.lib "test.example.com" "out" [] Sample.locked)))
  = None.
Proof.
  assert (Hh : "test.example.com" <> "") by discriminate.
  destruct (Generate_persistence Sample.lib "test.example.com" "out" []
              Sample.locked
              (RSAPrivateKey Sample.toyRSA) Sample.locked
              [rsa_GenerateKey_call 2048]
              1700000000000000000 Sample.locked [time_Now_call]
              42 Sample.locked
              (buildTemplate Sample.lib (resolve []) "test.example.com"
                 (RSAPrivateKey Sample.toyRSA) 1700000000000000000 42)
              (RSAPrivateKey Sample.toyRSA) Sample.locked []
              Sample.toyDER Sample.locked
              Hh eq_refl eq_refl eq_refl eq_refl eq_refl) as (_ & Hrun).
  rewrite Hrun. repeat split.
Defined.

Lemma exported_options_curve_witness :
  ecdsaCurve (resolve [WithCA; WithP384; WithED25519; WithRSABits 512])
  = CurveP384 /\
  forall s,
    outcome (Generate Sample.lib "test.example.com" "out"
               [WithCA; WithP384; WithED25519; WithRSABits 512] Sample.empty)
    <> Err ("unrecognized elliptic curve: " ++ s).
Proof.
  assert (Hex : Forall exported
                  [WithCA; WithP384; WithED25519; WithRSABits 512]).
  { repeat constructor; eexists; constructor. }
  destruct (exported_options_curve _ Hex) as (_ & _ & _ & H).
  split; [reflexivity | ].
  apply (H Sample.World Sample.lib "test.example.com" "out" Sample.empty).
Defined.

(** The scenario of the package's tests: generate a CA, sign a leaf with
    it, verify the leaf against the CA. *)
Example sign_by_parent_then_verify :
  let w1 := Sample.withCA in
  let leaf := Generate Sample.lib "test.example.com" "out" Sample.byParent w1 in
  outcome leaf = Ok tt /\
  outcome (Verify Sample.lib "out/ca_cert.pem" "out/cert.pem"
             "test.example.com" (world leaf)) = Ok tt /\
  outcome (Verify Sample.lib "out/missing.pem" "out/cert.pem"
             "test.example.com" (world leaf))
  = Err "failed to read file: open out/missing.pem: no such file or directory" /\
  outcome (Verify Sample.lib "out/key.pem" "out/cert.pem"
             "test.example.com" (world leaf))
  = Err "failed to parse certificate PEM".
Proof. vm_compute. repeat split. Qed.

(** An unknown curve name, which only code inside the package can set. *)
Example unknown_curve :
  Generate Sample.lib "test.example.com" "out"
    [fun o => WithED25519 (mkOptions "" "" "cert.pem" "key.pem" "" 1 2048
                             "P192" false false)] Sample.empty
  = (Err ("unrecognized elliptic curve: " ++ Sample.quote ++ "P192"
          ++ Sample.quote), Sample.empty, []).
Proof. reflexivity. Qed.

(* ===================================================================== *)
(** ** Further properties of the package *)
(* ===================================================================== *)

Section More.

Context {W : Type} (L : Lib W).

(** X1.  Every error [Generate] returns is the unrecognized-curve error for
    the configured selector, one of three fixed texts, or one of thirteen
    fixed prefixes followed by the error of the collaborator that
    failed. *)
Theorem Generate_errors host dest opts (w : W) e :
  outcome (Generate L host dest opts w) = Err e ->
  e = "unrecognized elliptic curve: "
        ++ fmt_q L (ecdsaCurve (resolve opts)) \/
  In e ["missing required host parameter";
        "failed to parse certificate PEM";
        "failed to parse key PEM"] \/
  exists p e',
    e = p ++ e' /\
    In p ["failed to generate private key: ";
          "failed to parse creation date: ";
          "failed to generate serial number: ";
          "failed to read file: ";
          "failed to parse DER data: ";
          "failed to create certificate: ";
          "failed to open cert.pem for writing: ";
          "failed to write data to cert.pem: ";
          "error closing cert.pem: ";
          "failed to open key.pem for writing: ";
          "unable to marshal private key: ";
          "failed to write data to key.pem: ";
          "error closing key.pem: "].
Proof.
  intros He. apply Generate_error_forms in He. cbv zeta in He.
  destruct He as [(He & _)|[Hf|(p & e' & Hp & He)]].
  - now left.
  - right; left. exact Hf.
  - right; right. exists p, e'. split; [exact He | exact Hp].
Qed.

Lemma filter_none (P : Event -> bool) l :
  Forall (fun ev => P ev = false) l -> filter P l = [].
Proof.
  induction 1 as [|ev l Hev _ IH]; simpl; [reflexivity | ].
  now rewrite Hev.
Qed.

(** The calls of [Generate] up to and including a signing call write no
    file and hold that one signing call only. *)
Lemma before_persist_trace o w priv w1 t1 nb w2 t2 template w3 pc pk w4 t4 ev :
  generateKey L o w = (Ok (Ok priv), w1, t1) ->
  validityStart L o w1 = (Ok nb, w2, t2) ->
  loadSigner L o template priv w3 = (Ok (pc, pk), w4, t4) ->
  isSign ev = true -> isWrite ev = false ->
  let pre := (t1 ++ t2 ++ rand_Int_call serialNumberLimit :: t4 ++ [ev])%list in
  Forall (fun ev => isWrite ev = false) pre /\ filter isSign pre = [ev].
Proof.
  intros Hk Hv Hl Hs Hw pre.
  pose proof (prelude_trace L o w priv w1 t1 nb w2 t2 Hk Hv) as Hpre.
  pose proof (loadSigner_trace L o template priv w3) as Hld.
  rewrite Hl in Hld. unfold trace in Hld; simpl in Hld.
  assert (E : pre = ((t1 ++ t2 ++ [rand_Int_call serialNumberLimit])
                     ++ t4 ++ [ev])%list).
  { unfold pre. rewrite <- !app_assoc. reflexivity. }
  rewrite E. split.
  - apply Forall_app; split; [ | apply Forall_app; split].
    + revert Hpre. apply Forall_impl. now intros ev' [_ H].
    + revert Hld. apply Forall_impl. now intros [].
    + now repeat constructor.
  - rewrite (filter_app isSign
               (t1 ++ t2 ++ [rand_Int_call serialNumberLimit]) (t4 ++ [ev])).
    rewrite (filter_none isSign
               (t1 ++ t2 ++ [rand_Int_call serialNumberLimit])%list)
      by (revert Hpre; apply Forall_impl; now intros ev' [H _]).
    rewrite (filter_app isSign t4 [ev]).
    rewrite (filter_none isSign t4)
      by (revert Hld; apply Forall_impl; now intros []).
    simpl. now rewrite Hs.
Qed.

(** X2.  [Generate] touches no output file unless the signing call succeeded:
    its trace is a run of calls that write nothing, holding at most one
    signing call, followed by a run of file-writing calls; and when that
    second run is not empty, the first run ends with a signing call that
    returned the DER bytes. *)
Theorem Generate_writes_after_signing host dest opts (w : W) :
  let run := Generate L host dest opts w in
  exists pre post,
    trace run = (pre ++ post)%list /\
    Forall (fun ev => isWrite ev = false) pre /\
    Forall (fun ev => isWrite ev = true) post /\
    (length (filter isSign pre) <= 1)%nat /\
    (post <> [] ->
     exists pre' t issuer pub signer w4 derBytes w5,
       pre = (pre' ++ [x509_CreateCertificate_call t issuer pub signer])%list /\
       x509_CreateCertificate L t issuer pub signer w4 = (Ok derBytes, w5)).
Proof.
  intros run. unfold run.
  assert (Hnil : forall pre,
            Forall (fun ev => isWrite ev = false) pre ->
            (length (filter isSign pre) <= 1)%nat ->
            exists pre0 post,
              pre = (pre0 ++ post)%list /\
              Forall (fun ev => isWrite ev = false) pre0 /\
              Forall (fun ev => isWrite ev = true) post /\
              (length (filter isSign pre0) <= 1)%nat /\
              (post <> [] ->
               exists pre' t issuer pub signer w4 derBytes w5,
                 pre0 = (pre' ++ [x509_CreateCertificate_call t issuer pub signer])%list /\
                 x509_CreateCertificate L t issuer pub signer w4
                 = (Ok derBytes, w5))).
  { intros pre H1 H2. exists pre, []. rewrite app_nil_r.
    repeat split; auto. congruence. }
  destruct (len0 host) eqn:Hh.
  { rewrite Generate_staged, Hh. apply Hnil; simpl; auto. }
  apply len0_false in Hh. rewrite Generate_unfold by assumption. cbv zeta.
  set (o := resolve opts).
  pose proof (generateKey_trace L o w) as Hkt.
  destruct (generateKey L o w) as [[[[priv|e]|e] w1] t1] eqn:Hk;
    unfold trace in Hkt; simpl in Hkt.
  2,3: unfold trace; simpl; apply Hnil;
       [ revert Hkt; apply Forall_impl; now intros []
       | rewrite (filter_none isSign); [simpl; lia | ];
         revert Hkt; apply Forall_impl; now intros [] ].
  pose proof (validityStart_trace L o w1) as Hvt.
  destruct (validityStart L o w1) as [[[nb|e] w2] t2] eqn:Hv;
    unfold trace in Hvt; simpl in Hvt.
  2:{ unfold trace; simpl. apply Hnil.
      - apply Forall_app; split.
        + revert Hkt; apply Forall_impl; now intros [].
        + revert Hvt; apply Forall_impl; now intros ev ->.
      - rewrite (filter_none isSign); [simpl; lia | ].
        apply Forall_app; split.
        + revert Hkt; apply Forall_impl; now intros [].
        + revert Hvt; apply Forall_impl; now intros ev ->. }
  pose proof (prelude_trace L o w priv w1 t1 nb w2 t2 Hk Hv) as Hpre.
  destruct (rand_Int L serialNumberLimit w2) as [[sn|e] w3].
  2:{ unfold trace; simpl. apply Hnil.
      - revert Hpre. apply Forall_impl. now intros ev [_ H].
      - rewrite (filter_none isSign); [simpl; lia | ].
        revert Hpre. apply Forall_impl. now intros ev [H _]. }
  set (template := buildTemplate L o host priv nb sn).
  pose proof (loadSigner_trace L o template priv w3) as Hlt.
  destruct (loadSigner L o template priv w3) as [[[[pc pk]|e] w4] t4] eqn:Hl;
    unfold trace in Hlt; simpl in Hlt.
  2:{ unfold trace; simpl. apply Hnil.
      - replace (t1 ++ t2 ++ rand_Int_call serialNumberLimit :: t4)%list
          with ((t1 ++ t2 ++ [rand_Int_call serialNumberLimit]) ++ t4)%list
          by (rewrite <- !app_assoc; reflexivity).
        apply Forall_app; split.
        + revert Hpre. apply Forall_impl. now intros ev [_ H].
        + revert Hlt. apply Forall_impl. now intros [].
      - replace (t1 ++ t2 ++ rand_Int_call serialNumberLimit :: t4)%list
          with ((t1 ++ t2 ++ [rand_Int_call serialNumberLimit]) ++ t4)%list
          by (rewrite <- !app_assoc; reflexivity).
        rewrite (filter_none isSign); [simpl; lia | ].
        apply Forall_app; split.
        + revert Hpre. apply Forall_impl. now intros ev [H _].
        + revert Hlt. apply Forall_impl. now intros []. }
  set (sign := x509_CreateCertificate_call template pc (publicKey priv) pk).
  destruct (before_persist_trace o w priv w1 t1 nb w2 t2 template w3 pc pk
              w4 t4 sign Hk Hv Hl eq_refl eq_refl) as [Hw Hs].
  cbv zeta in Hw, Hs.
  destruct (x509_CreateCertificate L template pc (publicKey priv) pk w4)
    as [[der|e] w5] eqn:Hc.
  2:{ unfold trace; simpl. apply Hnil; [exact Hw | rewrite Hs; simpl; lia]. }
  pose proof (persist_trace L dest o priv der w5) as Hp.
  destruct (persist L dest o priv der w5) as [[r w6] t6].
  unfold trace in *; simpl in *.
  exists (t1 ++ t2 ++ rand_Int_call serialNumberLimit :: t4 ++ [sign])%list, t6.
  split; [ | split; [exact Hw | split; [exact Hp | split]]].
  - repeat (rewrite <- app_assoc; simpl). reflexivity.
  - rewrite Hs. simpl. lia.
  - intros _.
    exists (t1 ++ t2 ++ rand_Int_call serialNumberLimit :: t4)%list,
           template, pc, (publicKey priv), pk, w4, der, w5.
    split; [ | exact Hc].
    repeat (rewrite <- app_assoc; simpl). reflexivity.
Qed.

(** The key the switch of [Generate] leaves is of the family the
    configuration selects. *)
Lemma generateKey_family o w priv w1 t1 :
  generateKey L o w = (Ok (Ok priv), w1, t1) ->
  (exists k, priv = RSAPrivateKey k /\
             ecdsaCurve o = "" /\ ed25519Key o = false) \/
  (exists k, priv = ECDSAPrivateKey k /\
             In (ecdsaCurve o) recognizedCurves) \/
  (exists k, priv = Ed25519PrivateKey k /\
             ecdsaCurve o = "" /\ ed25519Key o = true).
Proof.
  intros Hk.
  destruct (generateKey_cases o) as [[Hc Hf]|[[Hc Hf]|[[c Hin]|[H0 Hn]]]].
  - rewrite generateKey_ed25519 in Hk by assumption.
    destruct (fst (ed25519_GenerateKey L w)) as [[pub k]|e];
      inversion Hk; subst. right; right. eauto.
  - rewrite generateKey_rsa in Hk by assumption.
    destruct (fst (rsa_GenerateKey L (rsaBits o) w)) as [k|e];
      inversion Hk; subst. left. eauto.
  - rewrite (generateKey_ecdsa L o w _ c Hin eq_refl) in Hk.
    destruct (fst (ecdsa_GenerateKey L c w)) as [k|e];
      inversion Hk; subst. right; left. exists k. split; [reflexivity | ].
    simpl in Hin. unfold recognizedCurves.
    destruct Hin as [H|[H|[H|[H|[]]]]]; inversion H; simpl; tauto.
  - rewrite generateKey_unrecognized in Hk by assumption. discriminate Hk.
Qed.

(** X3.  When [Generate] succeeds, the files hold a matching pair, also when
    a parent signs: the certificate file was written with the DER bytes
    the signing call returned for the public half of a key [priv], and
    the key file with the PKCS#8 encoding of that same [priv], never that
    of the signer.  The seven calls from the signing call on end the
    trace, and nothing before them writes a file. *)
Theorem Generate_success_files host dest opts (w : W) :
  outcome (Generate L host dest opts w) = Ok tt ->
  let o := resolve opts in
  exists pre template issuer signer priv w4 derBytes w5 certOut keyOut privBytes,
    trace (Generate L host dest opts w) =
      (pre ++
       [x509_CreateCertificate_call template issuer (publicKey priv) signer;
        os_Create_call (dest ++ "/" ++ certFileName o);
        pem_Encode_call certOut (mkBlock "CERTIFICATE" [] derBytes);
        File_Close_call certOut;
        os_OpenFile_call (dest ++ "/" ++ keyFileName o)
          (Z.lor (Z.lor os_O_WRONLY os_O_CREATE) os_O_TRUNC) mode_0600;
        pem_Encode_call keyOut (mkBlock "PRIVATE KEY" [] privBytes);
        File_Close_call keyOut])%list /\
    x509_CreateCertificate L template issuer (publicKey priv) signer w4
      = (Ok derBytes, w5) /\
    x509_MarshalPKCS8PrivateKey L priv = Ok privBytes /\
    publicKey priv <> None /\
    Forall (fun ev => isWrite ev = false) pre.
Proof.
  intros Hok o.
  destruct (len0 host) eqn:Hh.
  { rewrite Generate_staged, Hh in Hok. discriminate Hok. }
  apply len0_false in Hh. revert Hok.
  rewrite Generate_unfold by assumption. cbv zeta. fold o.
  destruct (generateKey L o w) as [[[[priv|e]|e] w1] t1] eqn:Hk;
    try discriminate.
  destruct (validityStart L o w1) as [[[nb|e] w2] t2] eqn:Hv;
    try discriminate.
  destruct (rand_Int L serialNumberLimit w2) as [[sn|e] w3];
    try discriminate.
  set (template := buildTemplate L o host priv nb sn).
  destruct (loadSigner L o template priv w3) as [[[[pc pk]|e] w4] t4] eqn:Hl;
    try discriminate.
  destruct (x509_CreateCertificate L template pc (publicKey priv) pk w4)
    as [[der|e] w5] eqn:Hc; try discriminate.
  rewrite persist_unfold. cbv zeta.
  unfold certPath, keyPath, keyFlag, certBlock, keyBlock.
  destruct (os_Create L _ w5) as [[certOut|e] w6]; try discriminate.
  destruct (pem_Encode L certOut _ w6) as [[[]|e] w7]; try discriminate.
  destruct (File_Close L certOut w7) as [[[]|e] w8]; try discriminate.
  destruct (os_OpenFile L _ _ _ w8) as [[keyOut|e] w9]; try discriminate.
  destruct (x509_MarshalPKCS8PrivateKey L priv) as [privBytes|e] eqn:Hm;
    try discriminate.
  destruct (pem_Encode L keyOut _ w9) as [[[]|e] w10]; try discriminate.
  destruct (File_Close L keyOut w10) as [[[]|e] w11]; try discriminate.
  intros _. unfold trace; simpl.
  exists (t1 ++ t2 ++ rand_Int_call serialNumberLimit :: t4)%list,
         template, pc, pk, priv, w4, der, w5, certOut, keyOut, privBytes.
  split; [repeat (rewrite <- app_assoc; simpl); reflexivity | ].
  split; [exact Hc | split; [exact Hm | split]].
  - destruct (generateKey_family o w priv w1 t1 Hk)
      as [(k & -> & _)|[(k & -> & _)|(k & -> & _)]]; discriminate.
  - pose proof (prelude_trace L o w priv w1 t1 nb w2 t2 Hk Hv) as Hpre.
    pose proof (loadSigner_trace L o template priv w3) as Hld.
    rewrite Hl in Hld. unfold trace in Hld; simpl in Hld.
    replace (t1 ++ t2 ++ rand_Int_call serialNumberLimit :: t4)%list
      with ((t1 ++ t2 ++ [rand_Int_call serialNumberLimit]) ++ t4)%list
      by (repeat (rewrite <- app_assoc; simpl); reflexivity).
    apply Forall_app; split.
    + revert Hpre. apply Forall_impl. now intros ev [_ H].
    + revert Hld. apply Forall_impl. now intros [].
Qed.

(** X4.  The subject public key of every signing call is of the family the
    configuration selects, and is never nil: an RSA key exactly when the
    selector is unset and the Ed25519 flag is not set, which is also
    exactly when the KeyEncipherment bit is set; an ECDSA key when the
    selector is one of the four constants; an Ed25519 key when the
    selector is unset and the flag is set. *)
Theorem Generate_subject_key host dest opts (w : W) t issuer pub signer :
  In (x509_CreateCertificate_call t issuer pub signer)
     (trace (Generate L host dest opts w)) ->
  let o := resolve opts in
  ((exists k, pub = Some (RSAPublicKey k) /\
              ecdsaCurve o = "" /\ ed25519Key o = false) \/
   (exists k, pub = Some (ECDSAPublicKey k) /\
              In (ecdsaCurve o) recognizedCurves) \/
   (exists k, pub = Some (Ed25519PublicKey k) /\
              ecdsaCurve o = "" /\ ed25519Key o = true)) /\
  (hasKeyUsage (KeyUsage t) x509_KeyUsageKeyEncipherment = true <->
   ecdsaCurve o = "" /\ ed25519Key o = false).
Proof.
  intros Hin o. apply Generate_sign_inv in Hin. cbv zeta in Hin. fold o in Hin.
  destruct Hin as (priv & w1 & t1 & nb & w2 & t2 & sn & w3 & w4 & t4 &
                   _ & Hk & _ & _ & -> & -> & _).
  pose proof (buildTemplate_fields L o host priv nb sn) as H.
  cbv zeta in H. destruct H as (_ & _ & _ & _ & Hku & _).
  rewrite Hku.
  destruct (generateKey_family o w priv w1 t1 Hk)
    as [(k & -> & Hc & Hf)|[(k & -> & Hc)|(k & -> & Hc & Hf)]]; simpl.
  - split; [left; eauto | ].
    destruct (isCA o); simpl; split; auto.
  - split; [right; left; eauto | ].
    assert (Hne : ecdsaCurve o <> "").
    { intros E. rewrite E in Hc. simpl in Hc. intuition discriminate. }
    destruct (isCA o); simpl; split; try discriminate; intros [E _];
      contradiction.
  - split; [right; right; eauto | ].
    destruct (isCA o); simpl; split; try discriminate; intros [_ E];
      congruence.
Qed.

(** X5.  The key usage of every template is exactly the DigitalSignature bit,
    plus the KeyEncipherment bit for an RSA subject key, plus the CertSign
    bit when the CA flag is set; no other bit is ever set. *)
Theorem Generate_key_usage_value host dest opts (w : W) t issuer pub signer :
  In (x509_CreateCertificate_call t issuer pub signer)
     (trace (Generate L host dest opts w)) ->
  KeyUsage t =
    1 + (if isRSAPublic pub then 4 else 0)
      + (if isCA (resolve opts) then 32 else 0).
Proof.
  intros Hin. apply Generate_sign_inv in Hin. cbv zeta in Hin.
  destruct Hin as (priv & w1 & t1 & nb & w2 & t2 & sn & w3 & w4 & t4 &
                   _ & _ & _ & _ & -> & -> & _).
  pose proof (buildTemplate_fields L (resolve opts) host priv nb sn) as H.
  cbv zeta in H. destruct H as (_ & _ & _ & _ & Hku & _).
  rewrite Hku, isRSAPublic_publicKey.
  destruct (isRSA priv), (isCA (resolve opts)); reflexivity.
Qed.

Lemma strings_Split_length s sep :
  length (strings_Split s sep) = S (countByte sep s).
Proof.
  induction s as [|c s IH]; simpl; [reflexivity | ].
  destruct (Ascii.eqb c sep); simpl.
  - now rewrite IH.
  - destruct (strings_Split s sep); simpl in *; congruence.
Qed.

Lemma tokens_partition tokens :
  (length (dnsTokens L tokens) + length (ipTokens L tokens))%nat
  = length tokens.
Proof.
  induction tokens as [|h hs IH]; simpl; [reflexivity | ].
  destruct (net_ParseIP L h); simpl; lia.
Qed.

(** X6.  Every token of the host string becomes a name of the certificate,
    empty tokens included: a template has as many DNS names and IP
    addresses together as the host string has commas, plus one.  A
    trailing or doubled comma is not skipped. *)
Theorem Generate_host_count host dest opts (w : W) t issuer pub signer :
  In (x509_CreateCertificate_call t issuer pub signer)
     (trace (Generate L host dest opts w)) ->
  (length (DNSNames t) + length (IPAddresses t))%nat
  = S (countByte "," host).
Proof.
  intros Hin. apply Generate_sign_inv in Hin. cbv zeta in Hin.
  destruct Hin as (priv & w1 & t1 & nb & w2 & t2 & sn & w3 & w4 & t4 &
                   _ & _ & _ & _ & -> & _).
  pose proof (buildTemplate_fields L (resolve opts) host priv nb sn) as H.
  cbv zeta in H.
  destruct H as (_ & _ & _ & _ & _ & _ & _ & _ & Hdns & Hip).
  rewrite Hdns, Hip, tokens_partition. apply strings_Split_length.
Qed.

(** X7.  The serial number of every template is the number the random source
    returned when asked, once and before any file is read, for a number
    below 2^128; the subject organisation is always "Acme Co". *)
Theorem Generate_serial_subject host dest opts (w : W) t issuer pub signer :
  In (x509_CreateCertificate_call t issuer pub signer)
     (trace (Generate L host dest opts w)) ->
  Subject_Organization t = ["Acme Co"] /\
  (exists w2 w3, rand_Int L (2 ^ 128) w2 = (Ok (SerialNumber t), w3)) /\
  exists pre post,
    trace (Generate L host dest opts w)
    = (pre ++ rand_Int_call (2 ^ 128) :: post)%list /\
    Forall (fun ev => isRead ev = false) pre /\
    ~ In (rand_Int_call (2 ^ 128)) pre /\
    ~ In (rand_Int_call (2 ^ 128)) post.
Proof.
  intros Hin. apply Generate_sign_inv in Hin. cbv zeta in Hin.
  destruct Hin as (priv & w1 & t1 & nb & w2 & t2 & sn & w3 & w4 & t4 &
                   Hh & Hk & Hv & Hr & -> & -> & Hl).
  set (o := resolve opts) in *.
  pose proof (buildTemplate_fields L o host priv nb sn) as H.
  cbv zeta in H. destruct H as (Hsn & Hsub & _).
  split; [exact Hsub | ].
  split; [exists w2, w3; rewrite Hsn; exact Hr | ].
  destruct (Generate_after_sign L host dest opts w priv w1 t1 nb w2 t2 sn w3
              issuer signer w4 t4 Hh Hk Hv Hr Hl) as (rest & Ht & Hrest).
  pose proof (generateKey_trace L o w) as Hkt. rewrite Hk in Hkt.
  pose proof (validityStart_trace L o w1) as Hvt. rewrite Hv in Hvt.
  pose proof (loadSigner_trace L o (buildTemplate L o host priv nb sn) priv w3)
    as Hlt. rewrite Hl in Hlt.
  unfold trace in Hkt, Hvt, Hlt; simpl in Hkt, Hvt, Hlt.
  exists (t1 ++ t2)%list,
         (t4 ++ x509_CreateCertificate_call (buildTemplate L o host priv nb sn)
                  issuer (publicKey priv) signer :: rest)%list.
  split; [ | split; [ | split]].
  - rewrite Ht. repeat (rewrite <- app_assoc; simpl). reflexivity.
  - apply Forall_app; split.
    + revert Hkt. apply Forall_impl. now intros [].
    + revert Hvt. apply Forall_impl. now intros ev ->.
  - intros Hc. apply in_app_or in Hc. destruct Hc as [Hc|Hc].
    + apply (class_In _ _ _ Hkt) in Hc. discriminate Hc.
    + apply (now_In _ _ Hvt) in Hc. discriminate Hc.
  - intros Hc. apply in_app_or in Hc. destruct Hc as [Hc|[Hc|Hc]].
    + apply (class_In _ _ _ Hlt) in Hc. discriminate Hc.
    + discriminate Hc.
    + apply (class_In _ _ _ Hrest) in Hc. discriminate Hc.
Qed.

(** X8.  As the comment on [WithRSABits] says, the RSA key size is ignored when
    a curve is selected, and also when the Ed25519 flag is set: the run of
    [Generate] is then the same whatever size is configured last. *)
Theorem Generate_rsaBits_ignored host dest opts bits (w : W) :
  ecdsaCurve (resolve opts) <> "" \/ ed25519Key (resolve opts) = true ->
  Generate L host dest (opts ++ [WithRSABits bits]) w
  = Generate L host dest opts w.
Proof.
  intros Hsel. rewrite !Generate_staged.
  destruct (len0 host); [reflexivity | ]. cbv zeta.
  assert (Hres : resolve (opts ++ [WithRSABits bits])
                 = WithRSABits bits (resolve opts)).
  { unfold resolve. now rewrite applyOptions_app. }
  rewrite Hres. set (o := resolve opts) in *.
  assert (Hg : generateKey L (WithRSABits bits o) = generateKey L o).
  { unfold generateKey. simpl.
    destruct (String.eqb_spec (ecdsaCurve o) "") as [E|N]; [ | reflexivity].
    destruct Hsel as [Hc|He]; [contradiction | ]. now rewrite He. }
  rewrite Hg. reflexivity.
Qed.

(** X9.  A parent key path given without a parent certificate path is
    silently ignored: the run of [Generate] is the self-signed run, the
    same whatever the key path is, and reads no file. *)
Theorem Generate_parent_key_alone host dest opts keyPath' (w : W) :
  Generate L host dest (opts ++ [WithSignByParent "" keyPath']) w
  = Generate L host dest (opts ++ [WithSignByParent "" ""]) w /\
  Forall (fun ev => isRead ev = false)
         (trace (Generate L host dest
                   (opts ++ [WithSignByParent "" keyPath']) w)).
Proof.
  split.
  - rewrite !Generate_staged.
    destruct (len0 host); [reflexivity | ]. cbv zeta.
    unfold resolve. rewrite !applyOptions_app. reflexivity.
  - destruct (len0 host) eqn:Hh.
    { rewrite Generate_staged, Hh. constructor. }
    apply len0_false in Hh. rewrite Generate_unfold by assumption. cbv zeta.
    set (o := resolve (opts ++ [WithSignByParent "" keyPath'])).
    assert (Hp : parentCert o = "").
    { unfold o, resolve. now rewrite applyOptions_app. }
    pose proof (generateKey_trace L o w) as Hkt.
    destruct (generateKey L o w) as [[[[priv|e]|e] w1] t1];
      unfold trace in *; simpl in *;
      try (revert Hkt; apply Forall_impl; now intros []).
    pose proof (validityStart_trace L o w1) as Hvt.
    assert (H12 : Forall (fun ev => isRead ev = false) (t1 ++ snd (validityStart L o w1))).
    { apply Forall_app; split.
      - revert Hkt; apply Forall_impl; now intros [].
      - revert Hvt; apply Forall_impl; now intros ev ->. }
    destruct (validityStart L o w1) as [[[nb|e] w2] t2];
      unfold trace in *; simpl in *; [ | exact H12].
    apply Forall_app in H12. destruct H12 as [H1 H2].
    destruct (rand_Int L serialNumberLimit w2) as [[sn|e] w3].
    2:{ apply Forall_app; split; [exact H1 | ].
        apply Forall_app; split; [exact H2 | repeat constructor]. }
    rewrite loadSigner_self by assumption.
    destruct (x509_CreateCertificate L _ _ _ _ w3) as [[der|e] w5].
    + pose proof (persist_trace L dest o priv der w5) as Hpt.
      destruct (persist L dest o priv der w5) as [[r w6] t6].
      unfold trace in *; simpl in *.
      apply Forall_app; split; [exact H1 | ].
      apply Forall_app; split; [exact H2 | ].
      constructor; [reflexivity | ]. constructor; [reflexivity | ].
      revert Hpt. apply Forall_impl. now intros [].
    + simpl. apply Forall_app; split; [exact H1 | ].
      apply Forall_app; split; [exact H2 | repeat constructor].
Qed.

(** X10.  The two loaders never accept the same file content: what
    [ParsePemCertFile] accepts, [ParsePemKeyFile] rejects as not being a
    key PEM, and what [ParsePemKeyFile] accepts, [ParsePemCertFile]
    rejects as not being a certificate PEM.  So exchanging the two paths
    of [WithSignByParent] cannot go unnoticed. *)
Theorem loaders_exclusive path (w w' : W) :
  fst (os_ReadFile L path w') = fst (os_ReadFile L path w) ->
  (forall c, outcome (ParsePemCertFile L path w) = Ok c ->
     outcome (ParsePemKeyFile L path w') = Err "failed to parse key PEM") /\
  (forall k, outcome (ParsePemKeyFile L path w) = Ok k ->
     outcome (ParsePemCertFile L path w')
     = Err "failed to parse certificate PEM").
Proof.
  intros Hsame.
  rewrite !ParsePemCertFile_run, !ParsePemKeyFile_run. unfold outcome; simpl.
  rewrite Hsame.
  destruct (fst (os_ReadFile L path w)) as [der|e]; simpl;
    [ | split; intros; discriminate].
  destruct (fst (pem_Decode L der)) as [b|];
    [ | split; intros; discriminate].
  destruct (String.eqb_spec (Block_Type b) "CERTIFICATE") as [E|N];
    destruct (String.eqb_spec (Block_Type b) "PRIVATE KEY") as [E'|N'];
    simpl; split; intros; try discriminate; try reflexivity.
  all: rewrite E in E'; discriminate E'.
Qed.

Lemma strings_Split_one piece sep :
  ~ In sep (list_ascii_of_string piece) -> strings_Split piece sep = [piece].
Proof.
  induction piece as [|c piece IH]; simpl; intros Hn; [reflexivity | ].
  destruct (Ascii.eqb_spec c sep) as [->|Hc]; [exfalso; auto | ].
  rewrite IH by tauto. reflexivity.
Qed.

Lemma strings_Split_append piece sep rest :
  ~ In sep (list_ascii_of_string piece) ->
  strings_Split (piece ++ String sep rest) sep
  = piece :: strings_Split rest sep.
Proof.
  induction piece as [|c piece IH]; simpl; intros Hn.
  - now rewrite Ascii.eqb_refl.
  - destruct (Ascii.eqb_spec c sep) as [->|Hc]; [exfalso; auto | ].
    rewrite IH by tauto. reflexivity.
Qed.

Lemma strings_Split_of_concat tokens sep :
  tokens <> [] ->
  Forall (fun token => ~ In sep (list_ascii_of_string token)) tokens ->
  strings_Split (String.concat (String sep EmptyString) tokens) sep = tokens.
Proof.
  induction tokens as [|t ts IH]; intros Hne Hall; [contradiction | ].
  inversion Hall as [|? ? Ht Hts]; subst.
  destruct ts as [|t' ts].
  - simpl. now apply strings_Split_one.
  - change (String.concat (String sep EmptyString) (t :: t' :: ts))
      with (t ++ String sep (String.concat (String sep EmptyString) (t' :: ts))).
    rewrite strings_Split_append by assumption.
    rewrite IH; [reflexivity | discriminate | assumption].
Qed.

(** X11.  Joining names with commas and handing the result to [Generate] gives
    those names back: for tokens without a comma, the template built for
    their comma-joined string has as IP addresses the tokens
    [net.ParseIP] accepts and as DNS names the others, each exactly as
    given. *)
Theorem Generate_hosts_of_join tokens dest opts (w : W) t issuer pub signer :
  tokens <> [] ->
  Forall (fun token => ~ In ","%char (list_ascii_of_string token)) tokens ->
  In (x509_CreateCertificate_call t issuer pub signer)
     (trace (Generate L (String.concat "," tokens) dest opts w)) ->
  IPAddresses t = ipTokens L tokens /\ DNSNames t = dnsTokens L tokens.
Proof.
  intros Hne Hall Hin. apply Generate_sign_inv in Hin. cbv zeta in Hin.
  destruct Hin as (priv & w1 & t1 & nb & w2 & t2 & sn & w3 & w4 & t4 &
                   _ & _ & _ & _ & -> & _).
  pose proof (buildTemplate_fields L (resolve opts)
                (String.concat "," tokens) priv nb sn) as H.
  cbv zeta in H.
  destruct H as (_ & _ & _ & _ & _ & _ & _ & _ & Hdns & Hip).
  rewrite Hdns, Hip, strings_Split_of_concat by assumption. now split.
Qed.

End More.

(** *** The options *)

(** X12.  Exported options that assign different fields commute: the order of
    the options matters only among those that assign the same field. *)
Theorem options_commute p q fs gs o :
  writes p fs -> writes q gs ->
  (forall f, In f fs -> ~ In f gs) ->
  q (p o) = p (q o).
Proof.
  intros Hp Hq Hdisj.
  destruct Hp; destruct Hq; try reflexivity;
    exfalso;
    first [ apply (Hdisj FparentCert); simpl; tauto
          | apply (Hdisj FparentKey); simpl; tauto
          | apply (Hdisj FcertFileName); simpl; tauto
          | apply (Hdisj FkeyFileName); simpl; tauto
          | apply (Hdisj FvalidFrom); simpl; tauto
          | apply (Hdisj FvalidFor); simpl; tauto
          | apply (Hdisj FrsaBits); simpl; tauto
          | apply (Hdisj FecdsaCurve); simpl; tauto
          | apply (Hdisj Fed25519Key); simpl; tauto
          | apply (Hdisj FisCA); simpl; tauto ].
Qed.

Lemma applyOptions_keeps opts f :
  Forall (fun opt => exists fs, writes opt fs /\ ~ In f fs) opts ->
  forall o, getField f (applyOptions opts o) = getField f o.
Proof.
  induction 1 as [|opt opts (fs & Hw & Hf) _ IH]; intros o; simpl;
    [reflexivity | ].
  rewrite IH. now apply (writes_frame opt fs).
Qed.

(** X13.  A field that none of the options given assigns keeps its default:
    the key size stays 2048 without [WithRSABits], the file names stay
    "cert.pem" and "key.pem", the duration stays 365 days, and so on. *)
Theorem resolve_keeps_default opts f :
  Forall (fun opt => exists fs, writes opt fs /\ ~ In f fs) opts ->
  getField f (resolve opts) = getField f initOptions.
Proof. intros H. now apply applyOptions_keeps. Qed.

Lemma writes_sets opt fs f :
  writes opt fs -> In f fs ->
  forall o o', getField f (opt o) = getField f (opt o').
Proof.
  intros Hw Hf o o'.
  destruct Hw; simpl in Hf; intuition (subst; reflexivity).
Qed.

(** X15.  The last option that assigns a field decides it: whatever options
    come before, and whatever options that do not assign the field come
    after, the field has the value that option gives it. *)
Theorem options_last_writer before opt fs after f o :
  writes opt fs -> In f fs ->
  Forall (fun opt' => exists gs, writes opt' gs /\ ~ In f gs) after ->
  getField f (resolve (before ++ opt :: after)) = getField f (opt o).
Proof.
  intros Hw Hf Hafter. unfold resolve.
  rewrite applyOptions_app. simpl.
  rewrite (applyOptions_keeps after f Hafter).
  now apply (writes_sets opt fs f).
Qed.

Lemma exported_isCA opt o :
  exported opt ->
  (isCA (opt o) = true <-> isCA o = true \/ opt = WithCA).
Proof.
  intros [fs Hw]. split.
  - destruct Hw; simpl; auto.
  - intros [H| ->]; [ | reflexivity]. destruct Hw; simpl; auto.
Qed.

Lemma exported_ed25519Key opt o :
  exported opt ->
  (ed25519Key (opt o) = true <-> ed25519Key o = true \/ opt = WithED25519).
Proof.
  intros [fs Hw]. split.
  - destruct Hw; simpl; auto.
  - intros [H| ->]; [ | reflexivity]. destruct Hw; simpl; auto.
Qed.

Lemma applyOptions_isCA opts :
  Forall exported opts ->
  forall o, isCA (applyOptions opts o) = true <->
            isCA o = true \/ In WithCA opts.
Proof.
  induction 1 as [|opt opts Hopt _ IH]; intros o; simpl.
  - tauto.
  - rewrite IH, (exported_isCA opt o Hopt). intuition.
Qed.

Lemma applyOptions_ed25519Key opts :
  Forall exported opts ->
  forall o, ed25519Key (applyOptions opts o) = true <->
            ed25519Key o = true \/ In WithED25519 opts.
Proof.
  induction 1 as [|opt opts Hopt _ IH]; intros o; simpl.
  - tauto.
  - rewrite IH, (exported_ed25519Key opt o Hopt). intuition.
Qed.

(** X14.  The two flags can be set but never unset: after a list of exported
    options the CA flag is set exactly when [WithCA] is in the list, and
    the Ed25519 flag exactly when [WithED25519] is, wherever in the list
    and whatever follows. *)
Theorem flags_are_sticky opts :
  Forall exported opts ->
  (isCA (resolve opts) = true <-> In WithCA opts) /\
  (ed25519Key (resolve opts) = true <-> In WithED25519 opts).
Proof.
  intros Hex. unfold resolve.
  rewrite (applyOptions_isCA opts Hex), (applyOptions_ed25519Key opts Hex).
  simpl. intuition discriminate.
Qed.

Lemma Generate_errors_witness :
  exists p e',
    "failed to open key.pem for writing: open out/key.pem: permission denied"
    = p ++ e' /\
    In p wrapPrefixes.
Proof.
  destruct (Generate_errors Sample.lib "test.example.com" "out" []
              Sample.locked
              "failed to open key.pem for writing: open out/key.pem: permission denied"
              eq_refl) as [H|[H|H]].
  - discriminate H.
  - exfalso. simpl in H. intuition discriminate.
  - exact H.
Defined.

Lemma Generate_success_files_witness :
  exists pre template issuer signer priv w4 derBytes w5 certOut keyOut privBytes,
    trace (Generate Sample.lib "test.example.com" "out" Sample.byParent
             Sample.withCA) =
      (pre ++
       [x509_CreateCertificate_call template issuer (publicKey priv) signer;
        os_Create_call "out/cert.pem";
        pem_Encode_call certOut (mkBlock "CERTIFICATE" [] derBytes);
        File_Close_call certOut;
        os_OpenFile_call "out/key.pem" 577 384;
        pem_Encode_call keyOut (mkBlock "PRIVATE KEY" [] privBytes);
        File_Close_call keyOut])%list /\
    x509_CreateCertificate Sample.lib template issuer (publicKey priv) signer w4
      = (Ok derBytes, w5) /\
    x509_MarshalPKCS8PrivateKey Sample.lib priv = Ok privBytes /\
    publicKey priv <> None /\
    Forall (fun ev => isWrite ev = false) pre.
Proof.
  exact (Generate_success_files Sample.lib "test.example.com" "out"
           Sample.byParent Sample.withCA eq_refl).
Defined.

Lemma Generate_subject_key_witness :
  let t := buildTemplate Sample.lib (resolve [WithED25519]) "test.example.com"
             (Ed25519PrivateKey Sample.toyEd) 1700000000000000000 42 in
  hasKeyUsage (KeyUsage t) x509_KeyUsageKeyEncipherment = true <->
  ecdsaCurve (resolve [WithED25519]) = "" /\
  ed25519Key (resolve [WithED25519]) = false.
Proof.
  intros t.
  apply (Generate_subject_key Sample.lib "test.example.com" "out" [WithED25519]
           Sample.empty t t
           (Some (Ed25519PublicKey Sample.toyEdPublic))
           (Ed25519PrivateKey Sample.toyEd)).
  vm_compute. do 3 right. left. reflexivity.
Defined.

Lemma Generate_key_usage_value_witness :
  let t := buildTemplate Sample.lib (resolve [WithP256; WithCA])
             "test.example.com"
             (ECDSAPrivateKey (Sample.toyECDSA elliptic_P256))
             1700000000000000000 42 in
  KeyUsage t = 1 + 0 + 32.
Proof.
  intros t.
  apply (Generate_key_usage_value Sample.lib "test.example.com" "out"
           [WithP256; WithCA] Sample.empty t t
           (Some (ECDSAPublicKey
                    (ecdsa_Public (Sample.toyECDSA elliptic_P256))))
           (ECDSAPrivateKey (Sample.toyECDSA elliptic_P256))).
  vm_compute. do 3 right. left. reflexivity.
Defined.

Lemma Generate_host_count_witness :
  let t := buildTemplate Sample.lib (resolve []) "a.example.com,,127.0.0.1,"
             (RSAPrivateKey Sample.toyRSA) 1700000000000000000 42 in
  (length (DNSNames t) + length (IPAddresses t))%nat = 4%nat.
Proof.
  intros t.
  apply (Generate_host_count Sample.lib "a.example.com,,127.0.0.1," "out" []
           Sample.empty t t
           (Some (RSAPublicKey (rsa_Public Sample.toyRSA)))
           (RSAPrivateKey Sample.toyRSA)).
  vm_compute. do 3 right. left. reflexivity.
Defined.

Lemma Generate_serial_subject_witness :
  let t := buildTemplate Sample.lib (resolve []) "test.example.com"
             (RSAPrivateKey Sample.toyRSA) 1700000000000000000 42 in
  Subject_Organization t = ["Acme Co"] /\
  exists w2 w3,
    rand_Int Sample.lib (2 ^ 128) w2 = (Ok (SerialNumber t), w3).
Proof.
  intros t.
  destruct (Generate_serial_subject Sample.lib "test.example.com" "out" []
              Sample.empty t t
              (Some (RSAPublicKey (rsa_Public Sample.toyRSA)))
              (RSAPrivateKey Sample.toyRSA)) as (H1 & H2 & _).
  - vm_compute. do 3 right. left. reflexivity.
  - split; [exact H1 | exact H2].
Defined.

Lemma Generate_rsaBits_ignored_witness :
  Generate Sample.lib "test.example.com" "out"
    ([WithP384] ++ [WithRSABits 1]) Sample.empty
  = Generate Sample.lib "test.example.com" "out" [WithP384] Sample.empty.
Proof.
  apply (Generate_rsaBits_ignored Sample.lib "test.example.com" "out"
           [WithP384] 1 Sample.empty).
  left. discriminate.
Defined.

Lemma loaders_exclusive_witness :
  outcome (ParsePemKeyFile Sample.lib "out/ca_cert.pem" Sample.withCA)
  = Err "failed to parse key PEM".
Proof.
  destruct (loaders_exclusive Sample.lib "out/ca_cert.pem"
              Sample.withCA Sample.withCA eq_refl) as [H _].
  apply (H (mkCertificate Sample.toyDER 0 [] 0 0 0 [] false false [] [])).
  reflexivity.
Defined.

Lemma Generate_hosts_of_join_witness :
  let tokens := ["*.example.com"; "127.0.0.1"; " b.example.com"] in
  let t := buildTemplate Sample.lib (resolve [])
             (String.concat "," tokens)
             (RSAPrivateKey Sample.toyRSA) 1700000000000000000 42 in
  IPAddresses t = ipTokens Sample.lib tokens /\
  DNSNames t = dnsTokens Sample.lib tokens.
Proof.
  intros tokens t.
  apply (Generate_hosts_of_join Sample.lib tokens "out" [] Sample.empty t t
           (Some (RSAPublicKey (rsa_Public Sample.toyRSA)))
           (RSAPrivateKey Sample.toyRSA)).
  - discriminate.
  - repeat constructor; vm_compute; intuition discriminate.
  - vm_compute. do 3 right. left. reflexivity.
Defined.

Lemma options_commute_witness :
  WithP256 (WithSignByParent "ca.pem" "ca.key" initOptions)
  = WithSignByParent "ca.pem" "ca.key" (WithP256 initOptions).
Proof.
  apply (options_commute (WithSignByParent "ca.pem" "ca.key") WithP256
           [FparentCert; FparentKey] [FecdsaCurve] initOptions).
  - constructor.
  - constructor.
  - simpl. intros f [<-|[<-|[]]] [H|[]]; discriminate H.
Defined.

Lemma resolve_keeps_default_witness :
  getField FrsaBits (resolve [WithCA; WithDuration 0; WithP521])
  = VInt 2048.
Proof.
  apply (resolve_keeps_default [WithCA; WithDuration 0; WithP521] FrsaBits).
  repeat constructor.
  - exists [FisCA]. split; [constructor | simpl; intuition discriminate].
  - exists [FvalidFor]. split; [constructor | simpl; intuition discriminate].
  - exists [FecdsaCurve]. split; [constructor | simpl; intuition discriminate].
Defined.

Lemma flags_are_sticky_witness :
  isCA (resolve [WithCA; WithRSABits 4096; WithP256]) = true.
Proof.
  assert (Hex : Forall exported [WithCA; WithRSABits 4096; WithP256]).
  { repeat constructor; eexists; constructor. }
  destruct (flags_are_sticky _ Hex) as [[_ H] _].
  apply H. left. reflexivity.
Defined.

Lemma options_last_writer_witness :
  getField FkeyFileName
    (resolve ([WithKeyFileName "a.pem"; WithP256]
              ++ WithKeyFileName "b.pem" :: [WithCA; WithRSABits 4096]))
  = VString "b.pem".
Proof.
  apply (options_last_writer [WithKeyFileName "a.pem"; WithP256]
           (WithKeyFileName "b.pem") [FkeyFileName]
           [WithCA; WithRSABits 4096] FkeyFileName initOptions).
  - constructor.
  - left. reflexivity.
  - repeat constructor.
    + exists [FisCA]. split; [constructor | simpl; intuition discriminate].
    + exists [FrsaBits]. split; [constructor | simpl; intuition discriminate].
Defined.
